(** * RegisterScreen: the initial-admin registration screen

    A shallow embedding of the React component [RegisterScreen]
    (register-screen.tsx).  The component state is a record, the two
    asynchronous functions ([loadStatus] and [onSubmit]) are programs in
    a small state / completion monad that also records the observable
    calls (toasts, router calls, network requests, state setters), and
    the JSX returned by the component is the function [render]. *)

From Stdlib Require Import Bool String List ZArith Lia.
Import ListNotations.
Local Open Scope string_scope.
Local Open Scope list_scope.

(** ** JavaScript values used by the component *)

(** What a [catch (e)] clause can receive: an [Error] instance (with its
    [message]) or any other value. *)
Inductive Thrown : Type :=
| ErrorObject (message : string)
| NonError.

(** [e instanceof Error ? e.message : fallback] *)
Definition errorMessage (e : Thrown) (fallback : string) : string :=
  match e with
  | ErrorObject m => m
  | NonError => fallback
  end.

(** Truthiness of a string: only the empty string is falsy. *)
Definition truthyString (s : string) : bool :=
  match s with
  | EmptyString => false
  | String _ _ => true
  end.

(** Truthiness of an optional boolean property ([undefined] is falsy). *)
Definition truthy (b : option bool) : bool :=
  match b with
  | Some true => true
  | Some false | None => false
  end.

(** [x || fallback] where [x : string | undefined]. *)
Definition orElse (x : option string) (fallback : string) : string :=
  match x with
  | Some s => if truthyString s then s else fallback
  | None => fallback
  end.

(** ** Data model *)

Module SetupStatus.

Record t : Type := mk {
  isInitialized : bool;
  tablesCreated : bool;
  adminExists : bool;
  setupStep : string;
  dbConfigured : option bool;
  connectionValid : option bool;
  error : option string
}.

End SetupStatus.

Record FormData : Type := mkFormData {
  fullName : string;
  email : string;
  password : string
}.

(** The five [useState] cells of the component. *)
Record State : Type := mkState {
  status : option SetupStatus.t;
  loadingStatus : bool;
  submitting : bool;
  error : option string;
  formData : FormData
}.

(** The initial values handed to [useState]. *)
Definition initialState : State :=
  {| status := None;
     loadingStatus := true;
     submitting := false;
     error := None;
     formData := {| fullName := ""; email := ""; password := "" |} |}.

(** ** The network *)

(** Body of the registration POST, before [JSON.stringify]. *)
Record RegisterPayload : Type := mkPayload {
  payloadEmail : string;
  payloadPassword : string;
  payloadFullName : string;
  payloadRole : string
}.

Inductive Request : Type :=
| Get (url : string) (cache : string)
| Post (url : string) (contentType : string) (body : RegisterPayload).

(** A [Response] of the Fetch API, as far as the component looks at it:
    the HTTP status code, and what [response.json()] settles to (it
    rejects when the body does not parse). *)
Record Response (A : Type) : Type := mkResponse {
  httpStatus : Z;
  json : Thrown + A
}.
Arguments mkResponse {A} _ _.
Arguments httpStatus {A} _.
Arguments json {A} _.

(** [response.ok]: the status is in the range 200-299. *)
Definition ok {A : Type} (r : Response A) : bool :=
  ((200 <=? httpStatus r) && (httpStatus r <=? 299))%Z.

(** What [await fetch(...)] gives: it throws (the promise rejected) or
    yields a response. *)
Definition FetchResult (A : Type) : Type := (Thrown + Response A)%type.

(** What [response.json()] of the status endpoint yields when the body
    parses: the JSON value [null], or an object, read at its declared
    type [SetupStatus].  Reading a property of [null] throws a
    TypeError whose text is the engine's own; it comes with the value. *)
Inductive StatusJson : Type :=
| JsonNull (typeErrorMessage : string)
| JsonStatus (data : SetupStatus.t).

(** The value as [setStatus] stores it. *)
Definition statusOf (body : StatusJson) : option SetupStatus.t :=
  match body with
  | JsonNull _ => None
  | JsonStatus data => Some data
  end.

(** The parsed body of a registration response has type [any]; the
    handler reads it as [data?.error].  Following the endpoint's
    contract it is [null] or an object whose [error], when present, is a
    string. *)
Inductive Any : Type :=
| JsNull
| JsObject (error : option string).

(** [data?.error] *)
Definition optError (data : Any) : option string :=
  match data with
  | JsNull => None
  | JsObject e => e
  end.

(** ** Observable calls *)

Inductive Event : Type :=
| PreventDefault
| Fetch (req : Request)
| ToastError (msg : string)
| ToastSuccess (msg : string)
| RouterReplace (path : string)
| RouterPush (path : string)
| SetStatus (data : option SetupStatus.t)
| SetLoadingStatus (b : bool)
| SetSubmitting (b : bool)
| SetError (e : option string)
| SetFormData (f : FormData).

Definition isRedirect (e : Event) : bool :=
  match e with
  | RouterReplace _ | RouterPush _ => true
  | _ => false
  end.

Definition isNetworkCall (e : Event) : bool :=
  match e with
  | Fetch _ => true
  | _ => false
  end.

Definition isRegisterPost (e : Event) : bool :=
  match e with
  | Fetch (Post url _ _) => String.eqb url "/api/auth/register"
  | _ => false
  end.

Definition isStateUpdate (e : Event) : bool :=
  match e with
  | SetStatus _ | SetLoadingStatus _ | SetSubmitting _ | SetError _
  | SetFormData _ => true
  | _ => false
  end.

(** ** The monad of handler bodies

    A statement runs on the component state and ends in a completion:
    it falls through with a value, executes [return], or throws.  It
    also yields the calls it made, oldest first. *)

Inductive Completion (A : Type) : Type :=
| Normal (a : A)
| Returned
| Threw (e : Thrown).
Arguments Normal {A} _.
Arguments Returned {A}.
Arguments Threw {A} _.

Definition M (A : Type) : Type := State -> Completion A * State * list Event.

Definition ret {A : Type} (a : A) : M A := fun s => (Normal a, s, []).

Definition bind {A B : Type} (m : M A) (k : A -> M B) : M B :=
  fun s =>
    match m s with
    | (Normal a, s1, l1) =>
        let '(c, s2, l2) := k a s1 in (c, s2, l1 ++ l2)
    | (Returned, s1, l1) => (Returned, s1, l1)
    | (Threw e, s1, l1) => (Threw e, s1, l1)
    end.

Declare Scope js_scope.
Delimit Scope js_scope with js.
Notation "x <- m ;; k" := (bind m (fun x => k))
  (at level 100, m at next level, right associativity) : js_scope.
Notation "m ;; k" := (bind m (fun _ => k))
  (at level 100, right associativity) : js_scope.
Local Open Scope js_scope.

Definition returnNow {A : Type} : M A := fun s => (Returned, s, []).
Definition throw {A : Type} (e : Thrown) : M A := fun s => (Threw e, s, []).
Definition emit (e : Event) : M unit := fun s => (Normal tt, s, [e]).
Definition closure : M State := fun s => (Normal s, s, []).

(** [await p] where [p] settles to [r]. *)
Definition await {A : Type} (r : Thrown + A) : M A :=
  match r with
  | inl e => throw e
  | inr a => ret a
  end.

(** The first property read on the parsed status, [data.dbConfigured]:
    it throws on [null] and gives access to the fields otherwise. *)
Definition fieldsOf (body : StatusJson) : M SetupStatus.t :=
  match body with
  | JsonNull message => throw (ErrorObject message)
  | JsonStatus data => ret data
  end.

(** [if (c) { m }] *)
Definition when (c : bool) (m : M unit) : M unit :=
  if c then m else ret tt.

(** [try { body } catch (e) { handler e } finally { fin }]: the handler
    runs when the body throws, [fin] runs whatever happened (also after
    a [return]), and an abrupt completion of [fin] replaces the pending
    one. *)
Definition tryCatchFinally {A : Type}
    (body : M A) (handler : Thrown -> M A) (fin : M unit) : M A :=
  fun s =>
    let '(c1, s1, l1) := body s in
    let '(c2, s2, l2) :=
      match c1 with
      | Threw e => handler e s1
      | _ => (c1, s1, [])
      end in
    let '(c3, s3, l3) := fin s2 in
    (match c3 with
     | Normal _ => c2
     | Returned => Returned
     | Threw e => Threw e
     end, s3, l1 ++ l2 ++ l3).

(** The state setters. *)
Definition setStatus (data : option SetupStatus.t) : M unit :=
  fun s => (Normal tt,
            {| status := data; loadingStatus := loadingStatus s;
               submitting := submitting s; error := error s;
               formData := formData s |},
            [SetStatus data]).

Definition setLoadingStatus (b : bool) : M unit :=
  fun s => (Normal tt,
            {| status := status s; loadingStatus := b;
               submitting := submitting s; error := error s;
               formData := formData s |},
            [SetLoadingStatus b]).

Definition setSubmitting (b : bool) : M unit :=
  fun s => (Normal tt,
            {| status := status s; loadingStatus := loadingStatus s;
               submitting := b; error := error s;
               formData := formData s |},
            [SetSubmitting b]).

Definition setError (e : option string) : M unit :=
  fun s => (Normal tt,
            {| status := status s; loadingStatus := loadingStatus s;
               submitting := submitting s; error := e;
               formData := formData s |},
            [SetError e]).

Definition setFormData (f : FormData) : M unit :=
  fun s => (Normal tt,
            {| status := status s; loadingStatus := loadingStatus s;
               submitting := submitting s; error := error s;
               formData := f |},
            [SetFormData f]).

(** How the promise of an [async] function settles. *)
Inductive Settled : Type :=
| Fulfilled
| Rejected (e : Thrown).

Definition settle {A : Type} (c : Completion A) : Settled :=
  match c with
  | Normal _ | Returned => Fulfilled
  | Threw e => Rejected e
  end.

(** ** canRegisterInitialAdmin (the [useMemo] over [status]) *)

Definition canRegisterInitialAdmin (status : option SetupStatus.t) : bool :=
  match status with
  | None => false
  | Some st =>
      truthy (SetupStatus.dbConfigured st)
      && truthy (SetupStatus.connectionValid st)
      && SetupStatus.tablesCreated st
      && negb (SetupStatus.adminExists st)
  end.

(** ** loadStatus (inside the mount effect)

    The function suspends once, at the two consecutive [await]s of the
    fetch and of [response.json()], between which it runs no code.
    [loadStatus_start] is what runs synchronously when the effect calls
    it; [loadStatus_resume] is the rest, run when the awaited promises
    have settled to [r], with [cancelled] the value of the effect's
    flag at that moment.  The statements before the suspension cannot
    throw, so the [try] is carried by the second part.  After
    [setStatus(data)] the first thing the body does with [data] is to
    read [data.dbConfigured], which throws when the body was [null]
    ([fieldsOf]). *)

Definition statusRequest : Request := Get "/api/setup/status" "no-store".

Definition loadStatus_start : M Request :=
  setLoadingStatus true ;;
  setError None ;;
  emit (Fetch statusRequest) ;;
  ret statusRequest.

Definition loadStatus_resume (cancelled : bool)
    (r : FetchResult StatusJson) : M unit :=
  tryCatchFinally
    (response <- await r ;;
     body <- await (json response) ;;
     when cancelled returnNow ;;
     setStatus (statusOf body) ;;
     data <- fieldsOf body ;;
     when (negb (truthy (SetupStatus.dbConfigured data))
           || negb (truthy (SetupStatus.connectionValid data)))
          returnNow ;;
     when (negb (SetupStatus.tablesCreated data))
          (emit (RouterReplace "/setup") ;; returnNow) ;;
     when (SetupStatus.adminExists data)
          (emit (RouterReplace "/login") ;; returnNow))
    (fun e =>
       when cancelled returnNow ;;
       setError (Some (errorMessage e "Failed to check setup status")))
    (when (negb cancelled) (setLoadingStatus false)).

(** ** onSubmit

    The handler reads [canRegisterInitialAdmin] and [formData] from the
    render that bound it ([closure]), and suspends once, at the [await]
    of the registration fetch.  [onSubmit_start] runs up to that point
    and yields the request it sent; [onSubmit_resume] is the rest of the
    [try] statement, run when the fetch has settled to [r]. *)

Definition registerRequest (f : FormData) : Request :=
  Post "/api/auth/register" "application/json"
       {| payloadEmail := email f;
          payloadPassword := password f;
          payloadFullName := fullName f;
          payloadRole := "admin" |}.

Definition onSubmit_start : M Request :=
  s <- closure ;;
  emit PreventDefault ;;
  when (negb (canRegisterInitialAdmin (status s)))
       (emit (ToastError "Registration is not available right now") ;;
        returnNow) ;;
  when (String.length (password (formData s)) <? 8)%nat
       (emit (ToastError "Password must be at least 8 characters") ;;
        returnNow) ;;
  setSubmitting true ;;
  setError None ;;
  emit (Fetch (registerRequest (formData s))) ;;
  ret (registerRequest (formData s)).

(** [response.json().catch(() => ({}))] *)
Definition jsonOrEmpty (response : Response Any) : Any :=
  match json response with
  | inl _ => JsObject None
  | inr data => data
  end.

Definition onSubmit_resume (r : FetchResult Any) : M unit :=
  tryCatchFinally
    (response <- await r ;;
     when (ok response)
          (emit (ToastSuccess "Admin account created") ;;
           emit (RouterPush "/admin") ;;
           returnNow) ;;
     data <- ret (jsonOrEmpty response) ;;
     let message := orElse (optError data) "Failed to create account" in
     setError (Some message) ;;
     emit (ToastError message))
    (fun e =>
       let message := errorMessage e "Registration failed" in
       setError (Some message) ;;
       emit (ToastError message))
    (setSubmitting false).

(** The handler run to its end when nothing else touches the component
    while the request is in flight. *)
Definition onSubmit (r : FetchResult Any) : M unit :=
  onSubmit_start ;; onSubmit_resume r.

(** ** The [onChange] handlers of the three inputs *)

Definition onChangeFullName (v : string) : M unit :=
  s <- closure ;;
  setFormData {| fullName := v;
                 email := email (formData s);
                 password := password (formData s) |}.

Definition onChangeEmail (v : string) : M unit :=
  s <- closure ;;
  setFormData {| fullName := fullName (formData s);
                 email := v;
                 password := password (formData s) |}.

Definition onChangePassword (v : string) : M unit :=
  s <- closure ;;
  setFormData {| fullName := fullName (formData s);
                 email := email (formData s);
                 password := v |}.

(** ** What the component returns *)

Record InputProps : Type := mkInput {
  value : string;
  disabled : bool
}.

Record ButtonProps : Type := mkButton {
  label : string;
  buttonDisabled : bool
}.

Record FormProps : Type := mkForm {
  alert : option string;
  fullNameInput : InputProps;
  emailInput : InputProps;
  passwordInput : InputProps;
  submitButton : ButtonProps
}.

Inductive View : Type :=
| Spinner
| CannotRegister (message : string)
| RegistrationForm (form : FormProps).

(** [{error && <Alert>...{error}...</Alert>}] *)
Definition inlineAlert (error : option string) : option string :=
  match error with
  | Some e => if truthyString e then Some e else None
  | None => None
  end.

Definition registrationForm (s : State) : FormProps :=
  let off := submitting s || negb (canRegisterInitialAdmin (status s)) in
  {| alert := inlineAlert (error s);
     fullNameInput := {| value := fullName (formData s); disabled := off |};
     emailInput := {| value := email (formData s); disabled := off |};
     passwordInput := {| value := password (formData s); disabled := off |};
     submitButton :=
       {| label := if submitting s then "Creating..." else "Create Admin";
          buttonDisabled := off |} |}.

Definition cannotRegisterMessage (st : SetupStatus.t) : string :=
  orElse (SetupStatus.error st)
         (if negb (truthy (SetupStatus.dbConfigured st))
          then "DATABASE_URL is not configured"
          else "Unable to connect to database").

Definition render (s : State) : View :=
  if loadingStatus s then Spinner
  else
    match status s with
    | Some st =>
        if negb (truthy (SetupStatus.dbConfigured st))
           || negb (truthy (SetupStatus.connectionValid st))
        then CannotRegister (cannotRegisterMessage st)
        else RegistrationForm (registrationForm s)
    | None => RegistrationForm (registrationForm s)
    end.

(** ** The mounted component as a transition system

    A world is the component state, the [cancelled] flag of the mount
    effect, what is still awaited, and every call made so far. *)

Record World : Type := mkWorld {
  state : State;
  cancelled : bool;
  loaderPending : bool;
  inflight : nat;
  trace : list Event
}.

(** The world right after the first render and its effect: the effect
    sets [cancelled = false] and calls [loadStatus], which runs up to
    its [await]. *)
Definition mount : World :=
  let '(_, s, l) := loadStatus_start initialState in
  {| state := s; cancelled := false; loaderPending := true;
     inflight := 0; trace := l |}.

Inductive Action : Type :=
| LoaderSettles (r : FetchResult StatusJson)
| Unmount
| ChangeFullName (v : string)
| ChangeEmail (v : string)
| ChangePassword (v : string)
| Submit
| SubmitSettles (r : FetchResult Any)
| ClickGoToSetup
| ClickBackToLogin.

(** User events need the component mounted; a promise settles only if
    it is awaited.  Handlers run to completion: nothing happens between
    the resumption of an [async] function and its next [await] or its
    end, so each action is one step. *)
Definition enabled (a : Action) (w : World) : bool :=
  match a with
  | LoaderSettles _ => loaderPending w
  | SubmitSettles _ => (0 <? inflight w)%nat
  | _ => negb (cancelled w)
  end.

Definition perform (a : Action) (w : World) : World :=
  match a with
  | LoaderSettles r =>
      let '(_, s, l) := loadStatus_resume (cancelled w) r (state w) in
      {| state := s; cancelled := cancelled w; loaderPending := false;
         inflight := inflight w; trace := trace w ++ l |}
  | Unmount =>
      {| state := state w; cancelled := true;
         loaderPending := loaderPending w;
         inflight := inflight w; trace := trace w |}
  | ChangeFullName v =>
      let '(_, s, l) := onChangeFullName v (state w) in
      {| state := s; cancelled := cancelled w;
         loaderPending := loaderPending w;
         inflight := inflight w; trace := trace w ++ l |}
  | ChangeEmail v =>
      let '(_, s, l) := onChangeEmail v (state w) in
      {| state := s; cancelled := cancelled w;
         loaderPending := loaderPending w;
         inflight := inflight w; trace := trace w ++ l |}
  | ChangePassword v =>
      let '(_, s, l) := onChangePassword v (state w) in
      {| state := s; cancelled := cancelled w;
         loaderPending := loaderPending w;
         inflight := inflight w; trace := trace w ++ l |}
  | Submit =>
      let '(c, s, l) := onSubmit_start (state w) in
      {| state := s; cancelled := cancelled w;
         loaderPending := loaderPending w;
         inflight := match c with
                     | Normal _ => S (inflight w)
                     | _ => inflight w
                     end;
         trace := trace w ++ l |}
  | SubmitSettles r =>
      let '(_, s, l) := onSubmit_resume r (state w) in
      {| state := s; cancelled := cancelled w;
         loaderPending := loaderPending w;
         inflight := pred (inflight w); trace := trace w ++ l |}
  | ClickGoToSetup =>
      {| state := state w; cancelled := cancelled w;
         loaderPending := loaderPending w;
         inflight := inflight w; trace := trace w ++ [RouterPush "/setup"] |}
  | ClickBackToLogin =>
      {| state := state w; cancelled := cancelled w;
         loaderPending := loaderPending w;
         inflight := inflight w; trace := trace w ++ [RouterPush "/login"] |}
  end.

Fixpoint runActions (acts : list Action) (w : World) : option World :=
  match acts with
  | [] => Some w
  | a :: rest =>
      if enabled a w then runActions rest (perform a w) else None
  end.

Definition reachableFrom (w w' : World) : Prop :=
  exists acts, runActions acts w = Some w'.

Definition reachable (w : World) : Prop := reachableFrom mount w.

(** Two invariants of the reachable worlds.  Registration is closed and
    nothing is in flight while no status is stored; and only the loader
    stores a status, which it does when it settles. *)
Definition closedWhileNull (w : World) : Prop :=
  status (state w) = None ->
  inflight w = 0 /\ filter isRegisterPost (trace w) = [].

Definition nullWhilePending (w : World) : Prop :=
  loaderPending w = true -> status (state w) = None.

(** Reading the result of a run. *)
Definition completion {A : Type} (r : Completion A * State * list Event)
  : Completion A := fst (fst r).
Definition stateAfter {A : Type} (r : Completion A * State * list Event)
  : State := snd (fst r).
Definition calls {A : Type} (r : Completion A * State * list Event)
  : list Event := snd r.

(** The alert shown above the form, when the form is what is rendered. *)
Definition shownAlert (v : View) : option string :=
  match v with
  | RegistrationForm f => alert f
  | _ => None
  end.

(** Every control of the form carries the [disabled] attribute. *)
Definition allDisabled (f : FormProps) : bool :=
  disabled (fullNameInput f) && disabled (emailInput f)
  && disabled (passwordInput f) && buttonDisabled (submitButton f).

(** The router calls of [loadStatus] as a function of the data it
    received: the chain of [if]s after [setStatus(data)], used to state
    what a run of the loader calls. *)
Definition redirectFor (data : SetupStatus.t) : list Event :=
  if negb (truthy (SetupStatus.dbConfigured data))
     || negb (truthy (SetupStatus.connectionValid data))
  then []
  else if negb (SetupStatus.tablesCreated data) then [RouterReplace "/setup"]
  else if SetupStatus.adminExists data then [RouterReplace "/login"]
  else [].

(** ** Sample values *)

Definition readyStatus : SetupStatus.t :=
  {| SetupStatus.isInitialized := false;
     SetupStatus.tablesCreated := true;
     SetupStatus.adminExists := false;
     SetupStatus.setupStep := "admin";
     SetupStatus.dbConfigured := Some true;
     SetupStatus.connectionValid := Some true;
     SetupStatus.error := None |}.

Definition noTablesStatus : SetupStatus.t :=
  {| SetupStatus.isInitialized := false;
     SetupStatus.tablesCreated := false;
     SetupStatus.adminExists := false;
     SetupStatus.setupStep := "tables";
     SetupStatus.dbConfigured := Some true;
     SetupStatus.connectionValid := Some true;
     SetupStatus.error := None |}.

Definition adminExistsStatus : SetupStatus.t :=
  {| SetupStatus.isInitialized := true;
     SetupStatus.tablesCreated := true;
     SetupStatus.adminExists := true;
     SetupStatus.setupStep := "complete";
     SetupStatus.dbConfigured := Some true;
     SetupStatus.connectionValid := Some true;
     SetupStatus.error := None |}.

(** [dbConfigured: false] and [connectionValid] absent. *)
Definition noDatabaseStatus : SetupStatus.t :=
  {| SetupStatus.isInitialized := false;
     SetupStatus.tablesCreated := false;
     SetupStatus.adminExists := false;
     SetupStatus.setupStep := "database";
     SetupStatus.dbConfigured := Some false;
     SetupStatus.connectionValid := None;
     SetupStatus.error := None |}.

(** The form on screen, registration open, with the given password typed. *)
Definition readyState (pwd : string) : State :=
  {| status := Some readyStatus;
     loadingStatus := false;
     submitting := false;
     error := None;
     formData := {| fullName := "Ada"; email := "ada@example.org";
                    password := pwd |} |}.

(** The status arrives with registration open, the user types a
    password and submits, and the server answers 201. *)
Definition submitted : World :=
  perform Submit
    (perform (ChangePassword "correct horse")
       (perform (LoaderSettles (inr (mkResponse 200%Z (inr (JsonStatus readyStatus)))))
                mount)).

Definition afterSuccess : World :=
  perform (SubmitSettles (inr (mkResponse 201%Z (inr JsNull)))) submitted.

(** ** What one action adds to the trace *)

Definition emitted (a : Action) (w : World) : list Event :=
  match a with
  | LoaderSettles r => calls (loadStatus_resume (cancelled w) r (state w))
  | Unmount => []
  | ChangeFullName v => calls (onChangeFullName v (state w))
  | ChangeEmail v => calls (onChangeEmail v (state w))
  | ChangePassword v => calls (onChangePassword v (state w))
  | Submit => calls (onSubmit_start (state w))
  | SubmitSettles r => calls (onSubmit_resume r (state w))
  | ClickGoToSetup => [RouterPush "/setup"]
  | ClickBackToLogin => [RouterPush "/login"]
  end.

(** The same by cases, one constructor for each path through the
    handlers. *)
Inductive Emission (w : World) : Action -> list Event -> Prop :=
| em_loader_cancelled (r : FetchResult StatusJson) :
    cancelled w = true ->
    Emission w (LoaderSettles r) []
| em_loader_thrown (r : FetchResult StatusJson) (e : Thrown) :
    cancelled w = false ->
    Emission w (LoaderSettles r)
      [SetError (Some (errorMessage e "Failed to check setup status"));
       SetLoadingStatus false]
| em_loader_null (r : FetchResult StatusJson) (message : string) :
    cancelled w = false ->
    Emission w (LoaderSettles r)
      [SetStatus None; SetError (Some message); SetLoadingStatus false]
| em_loader_data (r : FetchResult StatusJson) (data : SetupStatus.t) :
    cancelled w = false ->
    Emission w (LoaderSettles r)
      (SetStatus (Some data) :: redirectFor data ++ [SetLoadingStatus false])
| em_unmount : Emission w Unmount []
| em_change_fullName (v : string) (f : FormData) :
    Emission w (ChangeFullName v) [SetFormData f]
| em_change_email (v : string) (f : FormData) :
    Emission w (ChangeEmail v) [SetFormData f]
| em_change_password (v : string) (f : FormData) :
    Emission w (ChangePassword v) [SetFormData f]
| em_submit_closed :
    canRegisterInitialAdmin (status (state w)) = false ->
    Emission w Submit
      [PreventDefault; ToastError "Registration is not available right now"]
| em_submit_short :
    canRegisterInitialAdmin (status (state w)) = true ->
    String.length (password (formData (state w))) < 8 ->
    Emission w Submit
      [PreventDefault; ToastError "Password must be at least 8 characters"]
| em_submit_sent :
    canRegisterInitialAdmin (status (state w)) = true ->
    8 <= String.length (password (formData (state w))) ->
    Emission w Submit
      [PreventDefault; SetSubmitting true; SetError None;
       Fetch (registerRequest (formData (state w)))]
| em_settle_ok (r : FetchResult Any) :
    Emission w (SubmitSettles r)
      [ToastSuccess "Admin account created"; RouterPush "/admin";
       SetSubmitting false]
| em_settle_failed (r : FetchResult Any) (message : string) :
    Emission w (SubmitSettles r)
      [SetError (Some message); ToastError message; SetSubmitting false]
| em_click_setup : Emission w ClickGoToSetup [RouterPush "/setup"]
| em_click_login : Emission w ClickBackToLogin [RouterPush "/login"].

(** Predicates on single calls, for properties of whole traces. *)
Definition isStatusGet (e : Event) : bool :=
  match e with
  | Fetch (Get _ _) => true
  | _ => false
  end.

(** The state with one cell replaced. *)
Definition withSubmitting (b : bool) (s : State) : State :=
  {| status := status s; loadingStatus := loadingStatus s;
     submitting := b; error := error s; formData := formData s |}.

(** * Properties *)

(** ** Tactics *)

(** Unfold the monad down to plain pairs. *)
Ltac unfold_js :=
  unfold completion, stateAfter, calls,
    onSubmit, onSubmit_start, onSubmit_resume,
    loadStatus_start, loadStatus_resume,
    onChangeFullName, onChangeEmail, onChangePassword,
    tryCatchFinally, bind, when, await, fieldsOf, statusOf,
    ret, returnNow, throw, emit, closure,
    setStatus, setLoadingStatus, setSubmitting, setError, setFormData.

(** Split an equation [l = before ++ x :: after] on a list [l] whose
    spine is known: one goal is left for each position of [l] that can
    hold [x], with [before] replaced by the elements in front of it. *)
Lemma cons_eq_inv {A : Type} (a b : A) (l m : list A) :
  a :: l = b :: m -> a = b /\ l = m.
Proof.
  intros H. injection H. auto.
Qed.

Ltac split_positions H :=
  lazymatch type of H with
  | [] = ?b ++ _ :: _ => destruct b; discriminate H
  | _ :: _ = ?b ++ _ :: _ =>
      let e := fresh "e" in
      let b' := fresh "b" in
      let Hhead := fresh "Hhead" in
      destruct b as [| e b']; simpl in H;
      apply cons_eq_inv in H; destruct H as [Hhead H];
      [ try discriminate Hhead | subst e; split_positions H ]
  end.

(** ** canRegisterInitialAdmin *)

Lemma truthy_true (b : option bool) : truthy b = true <-> b = Some true.
Proof.
  destruct b as [[|]|]; simpl; split; congruence.
Qed.

Lemma canRegister_null : canRegisterInitialAdmin None = false.
Proof. reflexivity. Qed.

(** C1.  For every SetupStatus record, canRegisterInitialAdmin is true
    exactly when dbConfigured and connectionValid are present and true,
    tablesCreated is true and adminExists is false; a record in which
    dbConfigured or connectionValid is absent is refused like one in
    which it is false. *)
Theorem canRegister_truth_table
    (i t a : bool) (step : string) (db conn : option bool)
    (e : option string) :
  (canRegisterInitialAdmin (Some (SetupStatus.mk i t a step db conn e)) = true
   <-> (db = Some true /\ conn = Some true /\ t = true /\ a = false))
  /\ canRegisterInitialAdmin (Some (SetupStatus.mk i t a step None conn e))
     = canRegisterInitialAdmin
         (Some (SetupStatus.mk i t a step (Some false) conn e))
  /\ canRegisterInitialAdmin (Some (SetupStatus.mk i t a step db None e))
     = canRegisterInitialAdmin
         (Some (SetupStatus.mk i t a step db (Some false) e))
  /\ canRegisterInitialAdmin (Some (SetupStatus.mk i t a step None conn e))
     = false
  /\ canRegisterInitialAdmin (Some (SetupStatus.mk i t a step db None e))
     = false.
Proof.
  unfold canRegisterInitialAdmin; simpl.
  split; [ | repeat split ].
  - rewrite !andb_true_iff, !truthy_true, negb_true_iff; tauto.
  - now rewrite andb_false_r.
Qed.

(** ** What each piece of the handlers computes *)

Lemma ok_2xx {A : Type} (r : Response A) :
  ok r = true <-> (200 <= httpStatus r <= 299)%Z.
Proof.
  unfold ok. rewrite andb_true_iff, !Z.leb_le. tauto.
Qed.

Lemma not_ok_non_2xx {A : Type} (r : Response A) :
  ok r = false <-> (httpStatus r < 200 \/ 299 < httpStatus r)%Z.
Proof.
  unfold ok. rewrite andb_false_iff, !Z.leb_gt. tauto.
Qed.

Lemma onSubmit_start_blocked (s : State) :
  canRegisterInitialAdmin (status s) = false ->
  onSubmit_start s
  = (Returned, s,
     [PreventDefault; ToastError "Registration is not available right now"]).
Proof.
  intros Hcan. unfold_js. rewrite Hcan. reflexivity.
Qed.

Lemma onSubmit_start_short_password (s : State) :
  canRegisterInitialAdmin (status s) = true ->
  String.length (password (formData s)) < 8 ->
  onSubmit_start s
  = (Returned, s,
     [PreventDefault; ToastError "Password must be at least 8 characters"]).
Proof.
  intros Hcan Hlen. apply Nat.ltb_lt in Hlen.
  unfold_js. rewrite Hcan, Hlen. reflexivity.
Qed.

Lemma onSubmit_start_sends (s : State) :
  canRegisterInitialAdmin (status s) = true ->
  8 <= String.length (password (formData s)) ->
  onSubmit_start s
  = (Normal (registerRequest (formData s)),
     {| status := status s; loadingStatus := loadingStatus s;
        submitting := true; error := None; formData := formData s |},
     [PreventDefault; SetSubmitting true; SetError None;
      Fetch (registerRequest (formData s))]).
Proof.
  intros Hcan Hlen. apply Nat.ltb_ge in Hlen.
  unfold_js. rewrite Hcan, Hlen. reflexivity.
Qed.

Lemma onSubmit_resume_ok (r : Response Any) (s : State) :
  ok r = true ->
  onSubmit_resume (inr r) s
  = (Returned,
     {| status := status s; loadingStatus := loadingStatus s;
        submitting := false; error := error s; formData := formData s |},
     [ToastSuccess "Admin account created"; RouterPush "/admin";
      SetSubmitting false]).
Proof.
  intros Hok. unfold_js. rewrite Hok. reflexivity.
Qed.

Lemma onSubmit_resume_not_ok (r : Response Any) (s : State) :
  ok r = false ->
  let message := orElse (optError (jsonOrEmpty r)) "Failed to create account" in
  onSubmit_resume (inr r) s
  = (Normal tt,
     {| status := status s; loadingStatus := loadingStatus s;
        submitting := false; error := Some message; formData := formData s |},
     [SetError (Some message); ToastError message; SetSubmitting false]).
Proof.
  intros Hok. unfold_js. rewrite Hok. reflexivity.
Qed.

Lemma onSubmit_resume_thrown (e : Thrown) (s : State) :
  let message := errorMessage e "Registration failed" in
  onSubmit_resume (inl e) s
  = (Normal tt,
     {| status := status s; loadingStatus := loadingStatus s;
        submitting := false; error := Some message; formData := formData s |},
     [SetError (Some message); ToastError message; SetSubmitting false]).
Proof.
  reflexivity.
Qed.

(** The loader, by cases on what it awaited. *)

Lemma loadStatus_resume_cancelled (r : FetchResult StatusJson) (s : State) :
  exists c, loadStatus_resume true r s = (c, s, []) /\ settle c = Fulfilled.
Proof.
  destruct r as [e | [code [e | data]]]; unfold_js; simpl;
    eexists; split; reflexivity.
Qed.

Lemma loadStatus_resume_thrown (e : Thrown) (r : FetchResult StatusJson)
    (s : State) :
  r = inl e \/ (exists response, r = inr response /\ json response = inl e) ->
  loadStatus_resume false r s
  = (Normal tt,
     {| status := status s; loadingStatus := false;
        submitting := submitting s;
        error := Some (errorMessage e "Failed to check setup status");
        formData := formData s |},
     [SetError (Some (errorMessage e "Failed to check setup status"));
      SetLoadingStatus false]).
Proof.
  intros [-> | [response [-> Hjson]]]; unfold_js; simpl.
  - reflexivity.
  - rewrite Hjson. reflexivity.
Qed.

Lemma loadStatus_resume_null (response : Response StatusJson)
    (message : string) (s : State) :
  json response = inr (JsonNull message) ->
  loadStatus_resume false (inr response) s
  = (Normal tt,
     {| status := None; loadingStatus := false;
        submitting := submitting s; error := Some message;
        formData := formData s |},
     [SetStatus None; SetError (Some message); SetLoadingStatus false]).
Proof.
  intros Hjson. unfold_js. simpl. rewrite Hjson. reflexivity.
Qed.

Lemma loadStatus_resume_data (response : Response StatusJson)
    (data : SetupStatus.t) (s : State) :
  json response = inr (JsonStatus data) ->
  exists c,
    loadStatus_resume false (inr response) s
    = (c,
       {| status := Some data; loadingStatus := false;
          submitting := submitting s; error := error s;
          formData := formData s |},
       SetStatus (Some data) :: redirectFor data ++ [SetLoadingStatus false])
    /\ settle c = Fulfilled.
Proof.
  intros Hjson. unfold_js. simpl. rewrite Hjson. unfold redirectFor.
  destruct data as [i t a step [[|]|] [[|]|] e]; simpl;
    try (eexists; split; reflexivity);
    destruct t; simpl; try (eexists; split; reflexivity);
    destruct a; simpl; eexists; split; reflexivity.
Qed.

(** ** The submission handler on success *)

(** C2 fails in its last part.  The [return] of the success branch sits
    inside the [try], so the [finally] block runs before the handler
    returns: when the handler has run on a 201 response the component is
    still mounted, [submitting] is false again and the form is rendered
    with its controls enabled. *)
Lemma onSubmit_success_resets_submitting :
  runActions [SubmitSettles (inr (mkResponse 201%Z (inr JsNull)))] submitted
  = Some afterSuccess
  /\ submitting (state submitted) = true
  /\ cancelled afterSuccess = false
  /\ submitting (state afterSuccess) = false
  /\ calls (onSubmit_resume (inr (mkResponse 201%Z (inr JsNull)))
                            (state submitted))
     = [ToastSuccess "Admin account created"; RouterPush "/admin";
        SetSubmitting false]
  /\ shownAlert (render (state afterSuccess)) = None
  /\ (forall f, render (state afterSuccess) = RegistrationForm f ->
        allDisabled f = false
        /\ label (submitButton f) = "Create Admin").
Proof.
  repeat (split; [ reflexivity | ]).
  intros f Hf. injection Hf as <-. split; reflexivity.
Qed.

(** C2, amended.  When the registration POST comes back with a 2xx
    status, the handler fires the success notice and calls
    [router.push('/admin')]; no [setSubmitting(false)] is among the
    calls it made before that navigation call; its [finally] block then
    calls [setSubmitting(false)] as its last call, so that [submitting]
    is false when the handler's promise fulfils.  This holds whatever
    the component state was when the handler resumed. *)
Theorem onSubmit_success_navigates (s s' : State) (r : Response Any)
    (Hcan : canRegisterInitialAdmin (status s) = true)
    (Hpwd : 8 <= String.length (password (formData s)))
    (H2xx : (200 <= httpStatus r <= 299)%Z) :
  let resumed := onSubmit_resume (inr r) s' in
  let made := calls (onSubmit_start s) ++ calls resumed in
  In (ToastSuccess "Admin account created") made
  /\ In (RouterPush "/admin") made
  /\ (forall before after,
         made = before ++ RouterPush "/admin" :: after ->
         ~ In (SetSubmitting false) before)
  /\ calls resumed
     = [ToastSuccess "Admin account created"; RouterPush "/admin";
        SetSubmitting false]
  /\ submitting (stateAfter resumed) = false
  /\ settle (completion resumed) = Fulfilled.
Proof.
  apply ok_2xx in H2xx.
  cbv zeta.
  rewrite (onSubmit_start_sends s Hcan Hpwd), (onSubmit_resume_ok r s' H2xx).
  unfold calls, completion, stateAfter; simpl.
  split; [ | split; [ | split ] ].
  - do 4 right; left; reflexivity.
  - do 5 right; left; reflexivity.
  - intros before after Hsplit Hin.
    split_positions Hsplit.
    simpl in Hin.
    repeat (destruct Hin as [Hin | Hin]; try discriminate Hin).
    contradiction.
  - repeat split.
Qed.

Lemma onSubmit_success_navigates_witness :
  In (RouterPush "/admin")
     (calls (onSubmit_start (readyState "correct horse"))
      ++ calls (onSubmit_resume (inr (mkResponse 201%Z (inr JsNull)))
                                (readyState "correct horse")))
  /\ submitting
       (stateAfter (onSubmit_resume (inr (mkResponse 201%Z (inr JsNull)))
                                    (readyState "correct horse"))) = false.
Proof.
  destruct (onSubmit_success_navigates
              (readyState "correct horse") (readyState "correct horse")
              (mkResponse 201%Z (inr JsNull)))
    as (_ & Hpush & _ & _ & Hreset & _).
  - reflexivity.
  - simpl; lia.
  - simpl; lia.
  - split; [ exact Hpush | exact Hreset ].
Defined.

(** ** The status loader on a received status *)

(** C3.  When the status arrives with dbConfigured or connectionValid
    falsy, the loader makes no router call, whatever the other fields
    are, its promise fulfils, and (the component still being mounted)
    the screen rendered from the resulting state is the cannot-register
    branch. *)
Theorem loadStatus_database_not_ready
    (cancelled : bool) (s : State) (response : Response StatusJson)
    (data : SetupStatus.t)
    (Hjson : json response = inr (JsonStatus data))
    (Hdb : truthy (SetupStatus.dbConfigured data) = false
           \/ truthy (SetupStatus.connectionValid data) = false) :
  let run := loadStatus_resume cancelled (inr response) s in
  filter isRedirect (calls run) = []
  /\ (cancelled = false ->
      render (stateAfter run) = CannotRegister (cannotRegisterMessage data))
  /\ settle (completion run) = Fulfilled.
Proof.
  assert (Hnot : negb (truthy (SetupStatus.dbConfigured data))
                 || negb (truthy (SetupStatus.connectionValid data)) = true).
  { apply orb_true_iff. rewrite !negb_true_iff. exact Hdb. }
  destruct cancelled.
  - destruct (loadStatus_resume_cancelled (inr response) s) as [c [Hrun Hc]].
    simpl. rewrite Hrun. split; [reflexivity | split; [discriminate | exact Hc]].
  - destruct (loadStatus_resume_data response data s Hjson) as [c [Hrun Hc]].
    simpl. rewrite Hrun. unfold calls, stateAfter, completion; simpl.
    unfold redirectFor, render; simpl. rewrite Hnot. simpl.
    split; [reflexivity | split; [reflexivity | exact Hc]].
Qed.

Lemma loadStatus_database_not_ready_witness :
  render (stateAfter (loadStatus_resume false
            (inr (mkResponse 200%Z (inr (JsonStatus noDatabaseStatus)))) initialState))
  = CannotRegister "DATABASE_URL is not configured".
Proof.
  apply (loadStatus_database_not_ready false initialState
           (mkResponse 200%Z (inr (JsonStatus noDatabaseStatus))) noDatabaseStatus).
  - reflexivity.
  - left; reflexivity.
  - reflexivity.
Defined.

(** C4.  When the status arrives with dbConfigured and connectionValid
    both true and the component is still mounted: with tablesCreated
    false the loader's only router call is [replace('/setup')];
    otherwise with adminExists true it is [replace('/login')];
    otherwise the loader makes no router call and the screen rendered
    from the resulting state is the registration form, with
    registration open. *)
Theorem loadStatus_database_ready
    (s : State) (response : Response StatusJson) (data : SetupStatus.t)
    (Hjson : json response = inr (JsonStatus data))
    (Hdb : SetupStatus.dbConfigured data = Some true)
    (Hconn : SetupStatus.connectionValid data = Some true) :
  let run := loadStatus_resume false (inr response) s in
  (SetupStatus.tablesCreated data = false ->
   filter isRedirect (calls run) = [RouterReplace "/setup"])
  /\ (SetupStatus.tablesCreated data = true ->
      SetupStatus.adminExists data = true ->
      filter isRedirect (calls run) = [RouterReplace "/login"])
  /\ (SetupStatus.tablesCreated data = true ->
      SetupStatus.adminExists data = false ->
      filter isRedirect (calls run) = []
      /\ render (stateAfter run)
         = RegistrationForm (registrationForm (stateAfter run))
      /\ canRegisterInitialAdmin (status (stateAfter run)) = true).
Proof.
  destruct (loadStatus_resume_data response data s Hjson) as [c [Hrun _]].
  simpl. rewrite Hrun. unfold calls, stateAfter; simpl.
  unfold redirectFor, render, canRegisterInitialAdmin; simpl.
  rewrite Hdb, Hconn; simpl.
  split; [ | split ].
  - intros ->. reflexivity.
  - intros -> ->. reflexivity.
  - intros -> ->. repeat split.
Qed.

Lemma loadStatus_database_ready_witness :
  filter isRedirect
    (calls (loadStatus_resume false
              (inr (mkResponse 200%Z (inr (JsonStatus noTablesStatus)))) initialState))
  = [RouterReplace "/setup"]
  /\ filter isRedirect
       (calls (loadStatus_resume false
                 (inr (mkResponse 200%Z (inr (JsonStatus adminExistsStatus))))
                 initialState))
     = [RouterReplace "/login"]
  /\ filter isRedirect
       (calls (loadStatus_resume false
                 (inr (mkResponse 200%Z (inr (JsonStatus readyStatus)))) initialState))
     = [].
Proof.
  split; [ | split ].
  - apply (loadStatus_database_ready initialState
             (mkResponse 200%Z (inr (JsonStatus noTablesStatus))) noTablesStatus);
      reflexivity.
  - apply (loadStatus_database_ready initialState
             (mkResponse 200%Z (inr (JsonStatus adminExistsStatus))) adminExistsStatus);
      reflexivity.
  - apply (loadStatus_database_ready initialState
             (mkResponse 200%Z (inr (JsonStatus readyStatus))) readyStatus);
      reflexivity.
Defined.

(** ** Local validation in the submission handler *)

(** C5.  With registration open and a password shorter than 8, the
    handler returns after an error toast: it sends no request, calls no
    state setter, and leaves the component state as it was. *)
Theorem onSubmit_short_password_rejected (s : State)
    (Hcan : canRegisterInitialAdmin (status s) = true)
    (Hlen : String.length (password (formData s)) < 8) :
  let run := onSubmit_start s in
  completion run = Returned
  /\ calls run
     = [PreventDefault; ToastError "Password must be at least 8 characters"]
  /\ filter isNetworkCall (calls run) = []
  /\ filter isStateUpdate (calls run) = []
  /\ stateAfter run = s
  /\ submitting (stateAfter run) = submitting s
  /\ error (stateAfter run) = error s.
Proof.
  simpl. rewrite (onSubmit_start_short_password s Hcan Hlen).
  unfold completion, calls, stateAfter; simpl.
  repeat split.
Qed.

Lemma onSubmit_short_password_rejected_witness :
  filter isNetworkCall (calls (onSubmit_start (readyState "7 chars"))) = []
  /\ stateAfter (onSubmit_start (readyState "7 chars")) = readyState "7 chars".
Proof.
  split;
    apply (onSubmit_short_password_rejected (readyState "7 chars"));
    first [ reflexivity | simpl; lia ].
Defined.

(** ** Server-side rejection of the registration *)

(** C6 fails for a body whose [error] is the empty string: [||] takes
    the default text, and the alert shows that text. *)
Lemma onSubmit_empty_error_shows_default :
  let r := mkResponse 400%Z (inr (JsObject (Some ""))) in
  let s' := stateAfter (onSubmit (inr r) (readyState "correct horse")) in
  ok r = false
  /\ json r = inr (JsObject (Some ""))
  /\ shownAlert (render s') = Some "Failed to create account"
  /\ shownAlert (render s') <> Some "".
Proof.
  simpl. repeat split. discriminate.
Qed.

(** C6, amended.  When the registration POST comes back with a non-2xx
    status while the form is on screen: if the body parses to an object
    whose [error] is a non-empty string, the inline alert shows exactly
    that string; if the body does not parse, is null, has no [error],
    or has the empty string as its [error], the alert shows "Failed to
    create account" and that text is what [error] holds; in every case
    [submitting] is false afterwards and the handler's promise
    fulfils. *)
Theorem onSubmit_rejected_shows_error (s : State) (r : Response Any)
    (Hloaded : loadingStatus s = false)
    (Hcan : canRegisterInitialAdmin (status s) = true)
    (Hnot2xx : (httpStatus r < 200 \/ 299 < httpStatus r)%Z) :
  let run := onSubmit_resume (inr r) s in
  (forall e, json r = inr (JsObject (Some e)) -> e <> "" ->
     shownAlert (render (stateAfter run)) = Some e
     /\ error (stateAfter run) = Some e)
  /\ ((exists t, json r = inl t) \/ json r = inr JsNull
      \/ json r = inr (JsObject None)
      \/ json r = inr (JsObject (Some "")) ->
      shownAlert (render (stateAfter run)) = Some "Failed to create account"
      /\ error (stateAfter run) = Some "Failed to create account")
  /\ submitting (stateAfter run) = false
  /\ settle (completion run) = Fulfilled.
Proof.
  apply not_ok_non_2xx in Hnot2xx.
  assert (Hrender : forall m, truthyString m = true ->
            shownAlert (render
              {| status := status s; loadingStatus := loadingStatus s;
                 submitting := false; error := Some m;
                 formData := formData s |}) = Some m).
  { intros m Hm. unfold render; simpl. rewrite Hloaded.
    destruct (status s) as [st |]; [ | discriminate Hcan ].
    simpl in Hcan. apply andb_true_iff in Hcan as [Hcan _].
    apply andb_true_iff in Hcan as [Hcan _].
    apply andb_true_iff in Hcan as [Hdb Hconn].
    rewrite Hdb, Hconn; simpl. rewrite Hm. reflexivity. }
  simpl. rewrite (onSubmit_resume_not_ok r s Hnot2xx).
  unfold stateAfter, completion, jsonOrEmpty; simpl.
  split; [ | split; [ | split; reflexivity ] ].
  - intros e Hjson He. rewrite Hjson; simpl.
    destruct e as [| a e]; [ contradiction He; reflexivity | ].
    simpl. split; [ apply Hrender | ]; reflexivity.
  - intros [[t Hjson] | [Hjson | [Hjson | Hjson]]]; rewrite Hjson; simpl;
      (split; [ apply Hrender | ]; reflexivity).
Qed.

Lemma onSubmit_rejected_shows_error_witness :
  shownAlert
    (render (stateAfter
       (onSubmit_resume
          (inr (mkResponse 400%Z (inr (JsObject (Some "Email taken")))))
          (stateAfter (onSubmit_start (readyState "correct horse"))))))
  = Some "Email taken".
Proof.
  apply (onSubmit_rejected_shows_error
           (stateAfter (onSubmit_start (readyState "correct horse")))
           (mkResponse 400%Z (inr (JsObject (Some "Email taken"))))).
  - reflexivity.
  - reflexivity.
  - simpl; lia.
  - reflexivity.
  - discriminate.
Defined.

(** ** The stored status along a run of the component *)

Lemma onSubmit_start_status (s : State) :
  status (stateAfter (onSubmit_start s)) = status s.
Proof.
  unfold_js.
  destruct (canRegisterInitialAdmin (status s)); simpl; [ | reflexivity ].
  destruct (String.length (password (formData s)) <? 8)%nat; reflexivity.
Qed.

Lemma onSubmit_start_posts (s : State) :
  status s = None ->
  filter isRegisterPost (calls (onSubmit_start s)) = []
  /\ completion (onSubmit_start s) = Returned.
Proof.
  intros Hnull.
  rewrite onSubmit_start_blocked by (rewrite Hnull; reflexivity).
  split; reflexivity.
Qed.

Lemma onSubmit_resume_status (r : FetchResult Any) (s : State) :
  status (stateAfter (onSubmit_resume r s)) = status s
  /\ filter isRegisterPost (calls (onSubmit_resume r s)) = [].
Proof.
  destruct r as [e | r].
  - rewrite onSubmit_resume_thrown. split; reflexivity.
  - destruct (ok r) eqn:Hok.
    + rewrite (onSubmit_resume_ok r s Hok). split; reflexivity.
    + rewrite (onSubmit_resume_not_ok r s Hok). split; reflexivity.
Qed.

Lemma filter_redirectFor (p : Event -> bool) (data : SetupStatus.t) :
  (forall path, p (RouterReplace path) = false) ->
  filter p (redirectFor data) = [].
Proof.
  intros Hp. unfold redirectFor.
  repeat match goal with
         | |- context [if ?b then _ else _] => destruct b
         end; simpl; rewrite ?Hp; reflexivity.
Qed.

Lemma loadStatus_resume_status (c : bool) (r : FetchResult StatusJson)
    (s : State) :
  (status (stateAfter (loadStatus_resume c r s)) = status s
   \/ status (stateAfter (loadStatus_resume c r s)) = None
   \/ exists data, status (stateAfter (loadStatus_resume c r s)) = Some data)
  /\ filter isRegisterPost (calls (loadStatus_resume c r s)) = [].
Proof.
  destruct c.
  - destruct (loadStatus_resume_cancelled r s) as [k [Hrun _]].
    rewrite Hrun. split; [ left | ]; reflexivity.
  - destruct r as [e | response].
    + rewrite (loadStatus_resume_thrown e) by (left; reflexivity).
      split; [ left | ]; reflexivity.
    + destruct (json response) as [e | [message | data]] eqn:Hjson.
      * rewrite (loadStatus_resume_thrown e)
          by (right; exists response; split; [ reflexivity | exact Hjson ]).
        split; [ left | ]; reflexivity.
      * rewrite (loadStatus_resume_null response message s Hjson).
        split; [ right; left | ]; reflexivity.
      * destruct (loadStatus_resume_data response data s Hjson)
          as [k [Hrun _]].
        rewrite Hrun. unfold stateAfter, calls; simpl.
        split; [ right; right; exists data; reflexivity | ].
        rewrite filter_app, filter_redirectFor by reflexivity.
        reflexivity.
Qed.

(** [perform] in terms of the projections of a run. *)
Lemma perform_LoaderSettles (r : FetchResult StatusJson) (w : World) :
  perform (LoaderSettles r) w
  = let run := loadStatus_resume (cancelled w) r (state w) in
    {| state := stateAfter run; cancelled := cancelled w;
       loaderPending := false; inflight := inflight w;
       trace := trace w ++ calls run |}.
Proof.
  unfold perform, stateAfter, calls.
  destruct (loadStatus_resume (cancelled w) r (state w)) as [[c s] l].
  reflexivity.
Qed.

Lemma perform_Submit (w : World) :
  perform Submit w
  = let run := onSubmit_start (state w) in
    {| state := stateAfter run; cancelled := cancelled w;
       loaderPending := loaderPending w;
       inflight := match completion run with
                   | Normal _ => S (inflight w)
                   | _ => inflight w
                   end;
       trace := trace w ++ calls run |}.
Proof.
  unfold perform, stateAfter, calls, completion.
  destruct (onSubmit_start (state w)) as [[c s] l].
  reflexivity.
Qed.

Lemma perform_SubmitSettles (r : FetchResult Any) (w : World) :
  perform (SubmitSettles r) w
  = let run := onSubmit_resume r (state w) in
    {| state := stateAfter run; cancelled := cancelled w;
       loaderPending := loaderPending w;
       inflight := pred (inflight w);
       trace := trace w ++ calls run |}.
Proof.
  unfold perform, stateAfter, calls.
  destruct (onSubmit_resume r (state w)) as [[c s] l].
  reflexivity.
Qed.

Lemma perform_status_null (a : Action) (w : World) :
  enabled a w = true ->
  nullWhilePending w ->
  status (state (perform a w)) = None -> status (state w) = None.
Proof.
  intros Hen Hpending.
  destruct a; try (simpl; intros H; exact H).
  - intros _. apply Hpending. exact Hen.
  - rewrite perform_Submit; simpl. rewrite onSubmit_start_status. auto.
  - rewrite perform_SubmitSettles; simpl.
    destruct (onSubmit_resume_status r (state w)) as [Hsame _]. congruence.
Qed.

Lemma perform_keeps_null (a : Action) (w : World) :
  enabled a w = true ->
  loaderPending w = false ->
  status (state w) = None ->
  loaderPending (perform a w) = false /\ status (state (perform a w)) = None.
Proof.
  intros Hen Hpending Hnull.
  destruct a; try (simpl; split; assumption).
  - simpl in Hen. congruence.
  - rewrite perform_Submit; simpl. rewrite onSubmit_start_status. auto.
  - rewrite perform_SubmitSettles; simpl.
    destruct (onSubmit_resume_status r (state w)) as [Hsame _].
    split; congruence.
Qed.

Lemma closedWhileNull_perform (a : Action) (w : World) :
  enabled a w = true ->
  nullWhilePending w ->
  closedWhileNull w -> closedWhileNull (perform a w).
Proof.
  intros Hen Hpending Hinv Hnull.
  pose proof (perform_status_null a w Hen Hpending Hnull) as Hbefore.
  destruct (Hinv Hbefore) as [Hflight Hposts].
  destruct a; simpl in Hen;
    try (simpl; rewrite ?filter_app, ?Hposts; split; [ assumption | reflexivity ]).
  - rewrite perform_LoaderSettles; simpl.
    destruct (loadStatus_resume_status (cancelled w) r (state w))
      as [_ Hnone].
    rewrite filter_app, Hposts, Hnone. split; [ assumption | reflexivity ].
  - rewrite perform_Submit; simpl.
    destruct (onSubmit_start_posts (state w) Hbefore) as [Hnone Hret].
    rewrite filter_app, Hposts, Hnone, Hret.
    split; [ assumption | reflexivity ].
  - rewrite Hflight in Hen. discriminate Hen.
Qed.

Lemma nullWhilePending_perform (a : Action) (w : World) :
  nullWhilePending w -> nullWhilePending (perform a w).
Proof.
  intros Hinv.
  destruct a; try exact Hinv.
  - rewrite perform_LoaderSettles; simpl. intros H; discriminate H.
  - rewrite perform_Submit; unfold nullWhilePending; simpl.
    rewrite onSubmit_start_status. exact Hinv.
  - rewrite perform_SubmitSettles; unfold nullWhilePending; simpl.
    destruct (onSubmit_resume_status r (state w)) as [Hsame _].
    rewrite Hsame. exact Hinv.
Qed.

Lemma runActions_invariant (P : World -> Prop) :
  (forall a w, enabled a w = true -> P w -> P (perform a w)) ->
  forall acts w w', runActions acts w = Some w' -> P w -> P w'.
Proof.
  intros Hstep acts.
  induction acts as [| a rest IH]; intros w w' Hrun Hw; simpl in Hrun.
  - injection Hrun as <-. exact Hw.
  - destruct (enabled a w) eqn:Hen; [ | discriminate Hrun ].
    apply (IH (perform a w) w' Hrun). apply Hstep; assumption.
Qed.

Lemma reachable_closedWhileNull (w : World) :
  reachable w -> closedWhileNull w.
Proof.
  intros [acts Hrun].
  apply (runActions_invariant
           (fun x => nullWhilePending x /\ closedWhileNull x))
    with (acts := acts) (w := mount); [ | exact Hrun | ].
  - intros a x Hen [Hpending Hclosed]. split.
    + apply nullWhilePending_perform. exact Hpending.
    + apply closedWhileNull_perform; assumption.
  - split; [ intros _; reflexivity | intros _; split; reflexivity ].
Qed.


Lemma reachableFrom_trans (w1 w2 w3 : World) :
  reachableFrom w1 w2 -> reachableFrom w2 w3 -> reachableFrom w1 w3.
Proof.
  intros [acts1 H1] [acts2 H2]. exists (acts1 ++ acts2).
  revert w1 H1. induction acts1 as [| a rest IH]; intros w1 H1; simpl in *.
  - injection H1 as ->. exact H2.
  - destruct (enabled a w1); [ apply IH; exact H1 | discriminate H1 ].
Qed.

Lemma reachableFrom_step (a : Action) (w : World) :
  enabled a w = true -> reachableFrom w (perform a w).
Proof.
  intros Hen. exists [a]. simpl. rewrite Hen. reflexivity.
Qed.

(** Once the loader has settled without storing a status, none is ever
    stored. *)
Lemma null_forever (w w' : World) :
  reachableFrom w w' ->
  loaderPending w = false -> status (state w) = None ->
  loaderPending w' = false /\ status (state w') = None.
Proof.
  intros [acts Hrun] Hpending Hnull.
  apply (runActions_invariant
           (fun x => loaderPending x = false /\ status (state x) = None))
    with (acts := acts) (w := w); auto.
  intros a x Hen [Hp Hn]. apply perform_keeps_null; assumption.
Qed.

(** ** Failure of the status check *)



(** ** The loader and the HTTP status code *)



(** ** Unmounting before the status arrives *)

(** C9.  When the cleanup of the mount effect has set [cancelled] before
    the awaited promises settle, the rest of [loadStatus] makes no call
    at all (no state setter, no router call), leaves the state as it
    is, and its promise fulfils, whatever was awaited; in the component,
    the loader settling after an unmount changes neither the state nor
    the trace. *)
Theorem loadStatus_cancelled_is_silent
    (r : FetchResult StatusJson) (s : State) (w : World) :
  let run := loadStatus_resume true r s in
  calls run = []
  /\ stateAfter run = s
  /\ settle (completion run) = Fulfilled
  /\ state (perform (LoaderSettles r) (perform Unmount w)) = state w
  /\ trace (perform (LoaderSettles r) (perform Unmount w)) = trace w.
Proof.
  cbv zeta.
  destruct (loadStatus_resume_cancelled r s) as [c [Hrun Hc]].
  destruct (loadStatus_resume_cancelled r (state w)) as [c' [Hrun' _]].
  rewrite Hrun, perform_LoaderSettles.
  replace (cancelled (perform Unmount w)) with true by reflexivity.
  replace (state (perform Unmount w)) with (state w) by reflexivity.
  replace (trace (perform Unmount w)) with (trace w) by reflexivity.
  cbv zeta. rewrite Hrun'.
  unfold calls, stateAfter, completion; cbn [fst snd state trace].
  rewrite app_nil_r.
  split; [ reflexivity | ].
  split; [ reflexivity | ].
  split; [ exact Hc | ].
  split; reflexivity.
Qed.

(** ** No registration without a loaded status *)

(** C10.  In every world the component can reach in which the stored
    status is null: [canRegisterInitialAdmin] is false; the three inputs
    and the submit button of the form are disabled; a submit returns
    after the "not available" notice without a network call or a state
    change; no registration POST has been sent and none is in flight;
    and if the loader has already settled, this holds in every later
    world. *)
Theorem null_status_blocks_registration (w : World)
    (Hreach : reachable w)
    (Hnull : status (state w) = None) :
  canRegisterInitialAdmin (status (state w)) = false
  /\ allDisabled (registrationForm (state w)) = true
  /\ (forall f, render (state w) = RegistrationForm f -> allDisabled f = true)
  /\ onSubmit_start (state w)
     = (Returned, state w,
        [PreventDefault; ToastError "Registration is not available right now"])
  /\ filter isNetworkCall (calls (onSubmit_start (state w))) = []
  /\ filter isRegisterPost (trace w) = []
  /\ inflight w = 0
  /\ (loaderPending w = false ->
      forall w', reachableFrom w w' ->
        status (state w') = None
        /\ filter isRegisterPost (trace w') = []).
Proof.
  assert (Hcan : canRegisterInitialAdmin (status (state w)) = false)
    by (rewrite Hnull; reflexivity).
  assert (Hoff : allDisabled (registrationForm (state w)) = true).
  { unfold allDisabled, registrationForm; simpl. rewrite Hcan; simpl.
    rewrite orb_true_r. reflexivity. }
  destruct (reachable_closedWhileNull w Hreach Hnull) as [Hflight Hposts].
  split; [ exact Hcan | ].
  split; [ exact Hoff | ].
  split.
  { intros f. unfold render. rewrite Hnull.
    destruct (loadingStatus (state w)); [ discriminate | ].
    intros Hf. injection Hf as <-. exact Hoff. }
  split; [ apply onSubmit_start_blocked; exact Hcan | ].
  split; [ rewrite (onSubmit_start_blocked _ Hcan); reflexivity | ].
  split; [ exact Hposts | ].
  split; [ exact Hflight | ].
  intros Hsettled w' Hlater.
  destruct (null_forever w w' Hlater Hsettled Hnull) as [_ Hnull'].
  split; [ exact Hnull' | ].
  apply (reachable_closedWhileNull w');
    [ apply (reachableFrom_trans mount w w' Hreach Hlater) | exact Hnull' ].
Qed.

Lemma null_status_blocks_registration_witness :
  filter isRegisterPost
    (trace (perform Submit
              (perform (LoaderSettles (inl NonError)) mount))) = [].
Proof.
  destruct (null_status_blocks_registration
              (perform Submit (perform (LoaderSettles (inl NonError)) mount)))
    as (_ & _ & _ & _ & _ & Hposts & _).
  - exists [LoaderSettles (inl NonError); Submit]. reflexivity.
  - reflexivity.
  - exact Hposts.
Defined.

(** * Further properties of the component *)

(** ** Each action, by cases *)

Lemma trace_perform (a : Action) (w : World) :
  trace (perform a w) = trace w ++ emitted a w.
Proof.
  destruct a; unfold emitted.
  - rewrite perform_LoaderSettles. reflexivity.
  - simpl. symmetry. apply app_nil_r.
  - reflexivity.
  - reflexivity.
  - reflexivity.
  - rewrite perform_Submit. reflexivity.
  - rewrite perform_SubmitSettles. reflexivity.
  - reflexivity.
  - reflexivity.
Qed.

Lemma emitted_Emission (a : Action) (w : World) : Emission w a (emitted a w).
Proof.
  destruct a; simpl; try (unfold calls; simpl; constructor).
  - destruct (cancelled w) eqn:Hc.
    + destruct (loadStatus_resume_cancelled r (state w)) as [k [Hrun _]].
      rewrite Hrun. apply em_loader_cancelled. exact Hc.
    + destruct r as [e | response].
      * rewrite (loadStatus_resume_thrown e) by (left; reflexivity).
        apply em_loader_thrown. exact Hc.
      * destruct (json response) as [e | [message | data]] eqn:Hjson.
        -- rewrite (loadStatus_resume_thrown e)
             by (right; exists response; split; [ reflexivity | exact Hjson ]).
           apply em_loader_thrown. exact Hc.
        -- rewrite (loadStatus_resume_null response message (state w) Hjson).
           apply em_loader_null. exact Hc.
        -- destruct (loadStatus_resume_data response data (state w) Hjson)
             as [k [Hrun _]].
           rewrite Hrun. apply em_loader_data. exact Hc.
  - destruct (canRegisterInitialAdmin (status (state w))) eqn:Hcan.
    + destruct (Nat.lt_ge_cases (String.length (password (formData (state w)))) 8)
        as [Hlen | Hlen].
      * rewrite (onSubmit_start_short_password _ Hcan Hlen).
        apply em_submit_short; assumption.
      * rewrite (onSubmit_start_sends _ Hcan Hlen).
        apply em_submit_sent; assumption.
    + rewrite (onSubmit_start_blocked _ Hcan). apply em_submit_closed. exact Hcan.
  - destruct r as [e | r].
    + rewrite onSubmit_resume_thrown. apply em_settle_failed.
    + destruct (ok r) eqn:Hok.
      * rewrite (onSubmit_resume_ok r _ Hok). apply em_settle_ok.
      * rewrite (onSubmit_resume_not_ok r _ Hok). apply em_settle_failed.
Qed.

Lemma redirectFor_cases (data : SetupStatus.t) :
  redirectFor data = []
  \/ redirectFor data = [RouterReplace "/setup"]
  \/ redirectFor data = [RouterReplace "/login"].
Proof.
  unfold redirectFor.
  repeat match goal with
         | |- context [if ?b then _ else _] => destruct b
         end; auto.
Qed.

(** A property of single calls that holds at mount and for what each
    action emits holds along every reachable trace. *)
Lemma reachable_trace_Forall (P : Event -> Prop) :
  Forall P (trace mount) ->
  (forall a w, reachable w -> enabled a w = true -> Forall P (emitted a w)) ->
  forall w, reachable w -> Forall P (trace w).
Proof.
  intros Hmount Hstep w [acts Hrun].
  assert (Hgen : forall acts w0 w1,
             reachable w0 -> Forall P (trace w0) ->
             runActions acts w0 = Some w1 -> Forall P (trace w1)).
  { clear acts Hrun w. intros acts.
    induction acts as [| a rest IH]; intros w0 w1 Hreach Hall Hrun;
      simpl in Hrun.
    - injection Hrun as <-. exact Hall.
    - destruct (enabled a w0) eqn:Hen; [ | discriminate Hrun ].
      apply (IH (perform a w0) w1).
      + apply (reachableFrom_trans mount w0); [ exact Hreach | ].
        apply reachableFrom_step. exact Hen.
      + rewrite trace_perform. apply Forall_app. split; [ exact Hall | ].
        apply Hstep; assumption.
      + exact Hrun. }
  apply (Hgen acts mount w); [ exists []; reflexivity | exact Hmount | exact Hrun ].
Qed.

(** ** The submission handler after the request has settled *)

Lemma render_form_with_error (s : State) (b : bool) (m : string) :
  loadingStatus s = false ->
  canRegisterInitialAdmin (status s) = true ->
  m <> "" ->
  shownAlert (render
    {| status := status s; loadingStatus := loadingStatus s;
       submitting := b; error := Some m; formData := formData s |})
  = Some m.
Proof.
  intros Hloaded Hcan Hm. unfold render; simpl. rewrite Hloaded.
  destruct (status s) as [st |]; [ | discriminate Hcan ].
  simpl in Hcan. apply andb_true_iff in Hcan as [Hcan _].
  apply andb_true_iff in Hcan as [Hcan _].
  apply andb_true_iff in Hcan as [Hdb Hconn].
  rewrite Hdb, Hconn; simpl.
  destruct m; [ contradiction Hm; reflexivity | reflexivity ].
Qed.

(** X1.  When the registration fetch itself rejects (a network error),
    the handler stores the exception's message, or "Registration failed"
    for a thrown value that is not an Error, shows the same text in a
    toast, resets [submitting], calls the router not at all, and its
    promise fulfils; with the form on screen the alert shows the text
    when it is not empty. *)
Theorem onSubmit_fetch_rejected (s : State) (e : Thrown)
    (Hloaded : loadingStatus s = false)
    (Hcan : canRegisterInitialAdmin (status s) = true) :
  let run := onSubmit_resume (inl e) s in
  let message := errorMessage e "Registration failed" in
  calls run = [SetError (Some message); ToastError message; SetSubmitting false]
  /\ error (stateAfter run) = Some message
  /\ submitting (stateAfter run) = false
  /\ filter isRedirect (calls run) = []
  /\ settle (completion run) = Fulfilled
  /\ (e = NonError -> message = "Registration failed")
  /\ (message <> "" -> shownAlert (render (stateAfter run)) = Some message).
Proof.
  cbv zeta. rewrite onSubmit_resume_thrown.
  unfold calls, stateAfter, completion; simpl.
  repeat (split; [ reflexivity | ]).
  split.
  - intros ->. reflexivity.
  - intros Hm. apply render_form_with_error; assumption.
Qed.

Lemma onSubmit_fetch_rejected_witness :
  shownAlert (render (stateAfter
    (onSubmit_resume (inl (ErrorObject "Failed to fetch"))
       (stateAfter (onSubmit_start (readyState "correct horse"))))))
  = Some "Failed to fetch".
Proof.
  destruct (onSubmit_fetch_rejected
              (stateAfter (onSubmit_start (readyState "correct horse")))
              (ErrorObject "Failed to fetch"))
    as (_ & _ & _ & _ & _ & _ & Hshown).
  - reflexivity.
  - reflexivity.
  - apply Hshown. discriminate.
Defined.

(** X2.  However the registration request settles (2xx, any other
    status, unparsable body, rejected fetch), the resumed handler ends
    with [setSubmitting(false)], its promise fulfils, it sends no
    further request, and it leaves [status], [loadingStatus] and the
    typed form fields as they are: the form is not cleared. *)
Theorem onSubmit_resume_always_unlocks (r : FetchResult Any) (s : State) :
  let run := onSubmit_resume r s in
  submitting (stateAfter run) = false
  /\ (exists earlier, calls run = earlier ++ [SetSubmitting false])
  /\ settle (completion run) = Fulfilled
  /\ filter isNetworkCall (calls run) = []
  /\ status (stateAfter run) = status s
  /\ loadingStatus (stateAfter run) = loadingStatus s
  /\ formData (stateAfter run) = formData s.
Proof.
  cbv zeta.
  destruct r as [e | r]; [ | destruct (ok r) eqn:Hok ].
  - rewrite onSubmit_resume_thrown.
    unfold calls, stateAfter, completion; simpl.
    split; [ reflexivity | ].
    split; [ eexists [_; _]; reflexivity | repeat split ].
  - rewrite (onSubmit_resume_ok r s Hok).
    unfold calls, stateAfter, completion; simpl.
    split; [ reflexivity | ].
    split; [ eexists [_; _]; reflexivity | repeat split ].
  - rewrite (onSubmit_resume_not_ok r s Hok).
    unfold calls, stateAfter, completion; simpl.
    split; [ reflexivity | ].
    split; [ eexists [_; _]; reflexivity | repeat split ].
Qed.

(** X3.  The resumed handler shows the success notice and calls
    [router.push('/admin')] exactly when the fetch resolved with a 2xx
    response, and it stores an error exactly when it did not; it never
    does both. *)
Theorem onSubmit_navigates_iff_2xx (r : FetchResult Any) (s : State) :
  let made := calls (onSubmit_resume r s) in
  let is2xx := exists response,
                 r = inr response /\ (200 <= httpStatus response <= 299)%Z in
  (In (RouterPush "/admin") made <-> is2xx)
  /\ (In (ToastSuccess "Admin account created") made <-> is2xx)
  /\ ((exists m, In (SetError m) made) <-> ~ is2xx).
Proof.
  cbv zeta.
  destruct r as [e | r]; [ | destruct (ok r) eqn:Hok ].
  - rewrite onSubmit_resume_thrown. unfold calls; simpl.
    assert (Hno : ~ exists response : Response Any,
               @inl Thrown (Response Any) e = inr response
               /\ (200 <= httpStatus response <= 299)%Z)
      by (intros [response [Heq _]]; discriminate Heq).
    split; [ | split ].
    + split; [ | intros H; contradiction ].
      intros [H | [H | [H | []]]]; discriminate H.
    + split; [ | intros H; contradiction ].
      intros [H | [H | [H | []]]]; discriminate H.
    + split; [ intros _; exact Hno | ].
      intros _. eexists. left. reflexivity.
  - rewrite (onSubmit_resume_ok r s Hok). unfold calls; simpl.
    assert (Hyes : exists response : Response Any,
               @inr Thrown (Response Any) r = inr response
               /\ (200 <= httpStatus response <= 299)%Z)
      by (exists r; split; [ reflexivity | apply ok_2xx; exact Hok ]).
    split; [ | split ].
    + split; [ intros _; exact Hyes | intros _; right; left; reflexivity ].
    + split; [ intros _; exact Hyes | intros _; left; reflexivity ].
    + split; [ | intros H; contradiction ].
      intros [m [H | [H | [H | []]]]]; discriminate H.
  - rewrite (onSubmit_resume_not_ok r s Hok). unfold calls; simpl.
    assert (Hno : ~ exists response : Response Any,
               @inr Thrown (Response Any) r = inr response
               /\ (200 <= httpStatus response <= 299)%Z).
    { intros [response [Heq H2xx]]. injection Heq as <-.
      apply ok_2xx in H2xx. congruence. }
    split; [ | split ].
    + split; [ | intros H; contradiction ].
      intros [H | [H | [H | []]]]; discriminate H.
    + split; [ | intros H; contradiction ].
      intros [H | [H | [H | []]]]; discriminate H.
    + split; [ intros _; exact Hno | ].
      intros _. eexists. left. reflexivity.
Qed.

(** ** The form while a request is in flight *)

(** X4.  After a submit that sends the request from the form on screen,
    the form is rendered with its three inputs and its submit button
    disabled, the button reads "Creating...", the previous alert is
    gone, and the inputs still hold what was typed. *)
Theorem onSubmit_in_flight_locks_form (s : State)
    (Hloaded : loadingStatus s = false)
    (Hcan : canRegisterInitialAdmin (status s) = true)
    (Hpwd : 8 <= String.length (password (formData s))) :
  exists f,
    render (stateAfter (onSubmit_start s)) = RegistrationForm f
    /\ allDisabled f = true
    /\ label (submitButton f) = "Creating..."
    /\ alert f = None
    /\ value (fullNameInput f) = fullName (formData s)
    /\ value (emailInput f) = email (formData s)
    /\ value (passwordInput f) = password (formData s).
Proof.
  rewrite (onSubmit_start_sends s Hcan Hpwd). unfold stateAfter; simpl.
  unfold render; simpl. rewrite Hloaded.
  destruct (status s) as [st |] eqn:Hst; [ | discriminate Hcan ].
  pose proof Hcan as Hfields. simpl in Hfields.
  apply andb_true_iff in Hfields as [Hfields _].
  apply andb_true_iff in Hfields as [Hfields _].
  apply andb_true_iff in Hfields as [Hdb Hconn].
  rewrite Hdb, Hconn; simpl.
  eexists. split; [ reflexivity | ].
  unfold allDisabled, registrationForm; simpl.
  repeat split.
Qed.

Lemma onSubmit_in_flight_locks_form_witness :
  exists f,
    render (stateAfter (onSubmit_start (readyState "correct horse")))
    = RegistrationForm f
    /\ allDisabled f = true.
Proof.
  destruct (onSubmit_in_flight_locks_form (readyState "correct horse"))
    as (f & Hrender & Hoff & _).
  - reflexivity.
  - reflexivity.
  - simpl; lia.
  - exists f. split; assumption.
Defined.

(** X5.  The handler does not read [submitting]: in every state, what
    a submit calls and how it completes is the same whether or not a
    request is in flight.  So with registration open and an acceptable
    password a submit sends a request even while [submitting] is true;
    only the [disabled] attributes, which are set then, keep a second
    submit away. *)
Theorem onSubmit_ignores_submitting (s : State)
    (Hcan : canRegisterInitialAdmin (status s) = true)
    (Hpwd : 8 <= String.length (password (formData s))) :
  (forall s' b,
      calls (onSubmit_start (withSubmitting b s')) = calls (onSubmit_start s')
      /\ completion (onSubmit_start (withSubmitting b s'))
         = completion (onSubmit_start s'))
  /\ In (Fetch (registerRequest (formData s)))
        (calls (onSubmit_start (withSubmitting true s)))
  /\ allDisabled (registrationForm (withSubmitting true s)) = true.
Proof.
  split; [ | split ].
  - intros s' b. unfold_js. unfold withSubmitting; simpl.
    destruct (canRegisterInitialAdmin (status s')); simpl;
      [ | split; reflexivity ].
    destruct (String.length (password (formData s')) <? 8)%nat;
      split; reflexivity.
  - rewrite onSubmit_start_sends by assumption.
    unfold calls; simpl. do 3 right. left. reflexivity.
  - reflexivity.
Qed.

Lemma onSubmit_ignores_submitting_witness :
  In (Fetch (registerRequest (formData (readyState "correct horse"))))
     (calls (onSubmit_start (withSubmitting true (readyState "correct horse")))).
Proof.
  destruct (onSubmit_ignores_submitting (readyState "correct horse"))
    as (_ & Hsent & _).
  - reflexivity.
  - simpl; lia.
  - exact Hsent.
Defined.

(** ** The controlled inputs *)

(** X6.  Each [onChange] handler replaces its own field of [formData]
    and nothing else: the two other fields and the four other state
    cells keep their values, and the only call is one [setFormData].
    When the form is on screen, the input then shows the new value and
    the alert and the [disabled] attributes are as before. *)
Theorem onChange_replaces_one_field (s : State) (v : string) :
  let n := stateAfter (onChangeFullName v s) in
  let m := stateAfter (onChangeEmail v s) in
  let p := stateAfter (onChangePassword v s) in
  (formData n
   = {| fullName := v; email := email (formData s);
        password := password (formData s) |}
   /\ formData m
      = {| fullName := fullName (formData s); email := v;
           password := password (formData s) |}
   /\ formData p
      = {| fullName := fullName (formData s); email := email (formData s);
           password := v |})
  /\ (forall s', In s' [n; m; p] ->
        status s' = status s /\ loadingStatus s' = loadingStatus s
        /\ submitting s' = submitting s /\ error s' = error s)
  /\ (calls (onChangeFullName v s) = [SetFormData (formData n)]
      /\ calls (onChangeEmail v s) = [SetFormData (formData m)]
      /\ calls (onChangePassword v s) = [SetFormData (formData p)])
  /\ (forall f, render s = RegistrationForm f ->
        exists fn fm fp,
          render n = RegistrationForm fn
          /\ render m = RegistrationForm fm
          /\ render p = RegistrationForm fp
          /\ value (fullNameInput fn) = v
          /\ value (emailInput fm) = v
          /\ value (passwordInput fp) = v
          /\ alert fn = alert f /\ alert fm = alert f /\ alert fp = alert f
          /\ allDisabled fn = allDisabled f
          /\ allDisabled fm = allDisabled f
          /\ allDisabled fp = allDisabled f).
Proof.
  cbv zeta. unfold stateAfter, calls; simpl.
  split; [ repeat split | ].
  split.
  { intros s' [<- | [<- | [<- | []]]]; repeat split. }
  split; [ repeat split | ].
  intros f. unfold render; simpl.
  destruct (loadingStatus s); [ discriminate | ].
  destruct (status s) as [st |] eqn:Hst.
  - destruct (negb (truthy (SetupStatus.dbConfigured st))
              || negb (truthy (SetupStatus.connectionValid st)));
      [ discriminate | ].
    intros Hf. injection Hf as <-.
    do 3 eexists.
    do 3 (split; [ reflexivity | ]).
    repeat split;
      unfold allDisabled, registrationForm; simpl; rewrite Hst; reflexivity.
  - intros Hf. injection Hf as <-.
    do 3 eexists.
    do 3 (split; [ reflexivity | ]).
    repeat split;
      unfold allDisabled, registrationForm; simpl; rewrite Hst; reflexivity.
Qed.

(** X7.  Updates of different fields commute, and of two updates of the
    same field the later one wins: typing into the three inputs in any
    order ends in the same form data. *)
Theorem onChange_compose (s : State) (u v : string) :
  stateAfter (onChangeEmail v (stateAfter (onChangeFullName u s)))
  = stateAfter (onChangeFullName u (stateAfter (onChangeEmail v s)))
  /\ stateAfter (onChangePassword v (stateAfter (onChangeFullName u s)))
     = stateAfter (onChangeFullName u (stateAfter (onChangePassword v s)))
  /\ stateAfter (onChangePassword v (stateAfter (onChangeEmail u s)))
     = stateAfter (onChangeEmail u (stateAfter (onChangePassword v s)))
  /\ stateAfter (onChangeFullName v (stateAfter (onChangeFullName u s)))
     = stateAfter (onChangeFullName v s)
  /\ stateAfter (onChangeEmail v (stateAfter (onChangeEmail u s)))
     = stateAfter (onChangeEmail v s)
  /\ stateAfter (onChangePassword v (stateAfter (onChangePassword u s)))
     = stateAfter (onChangePassword v s).
Proof.
  repeat split.
Qed.

(** ** The cannot-register branch *)

(** X8.  The text of the cannot-register alert is never empty: it is the
    status's own [error] when that is a non-empty string, and otherwise
    "DATABASE_URL is not configured" when dbConfigured is falsy
    (whatever connectionValid is) and "Unable to connect to database"
    when only connectionValid is falsy.  The branch is rendered exactly
    when loading is over and a status with dbConfigured or
    connectionValid falsy is stored. *)
Theorem cannotRegister_message (s : State) :
  (forall m, render s = CannotRegister m ->
     m <> ""
     /\ exists st,
          status s = Some st
          /\ loadingStatus s = false
          /\ (truthy (SetupStatus.dbConfigured st) = false
              \/ truthy (SetupStatus.connectionValid st) = false)
          /\ m = cannotRegisterMessage st)
  /\ (forall st,
        loadingStatus s = false -> status s = Some st ->
        truthy (SetupStatus.dbConfigured st) = false
        \/ truthy (SetupStatus.connectionValid st) = false ->
        render s = CannotRegister (cannotRegisterMessage st))
  /\ (forall st e,
        SetupStatus.error st = Some e -> e <> "" ->
        cannotRegisterMessage st = e)
  /\ (forall st,
        SetupStatus.error st = None \/ SetupStatus.error st = Some "" ->
        cannotRegisterMessage st
        = if truthy (SetupStatus.dbConfigured st)
          then "Unable to connect to database"
          else "DATABASE_URL is not configured").
Proof.
  assert (Hnonempty : forall st, cannotRegisterMessage st <> "").
  { intros st. unfold cannotRegisterMessage, orElse.
    destruct (SetupStatus.error st) as [[| a e] |]; simpl;
      destruct (truthy (SetupStatus.dbConfigured st)); discriminate. }
  split; [ | split; [ | split ] ].
  - intros m. unfold render.
    destruct (loadingStatus s); [ discriminate | ].
    destruct (status s) as [st |]; [ | discriminate ].
    destruct (negb (truthy (SetupStatus.dbConfigured st))
              || negb (truthy (SetupStatus.connectionValid st))) eqn:Hnot;
      [ | discriminate ].
    intros Hm. injection Hm as <-.
    split; [ apply Hnonempty | ].
    exists st. repeat split.
    apply orb_true_iff in Hnot. rewrite !negb_true_iff in Hnot. exact Hnot.
  - intros st Hloaded Hst Hnot. unfold render. rewrite Hloaded, Hst.
    assert (Hor : negb (truthy (SetupStatus.dbConfigured st))
                  || negb (truthy (SetupStatus.connectionValid st)) = true)
      by (apply orb_true_iff; rewrite !negb_true_iff; exact Hnot).
    rewrite Hor. reflexivity.
  - intros st e He Hne. unfold cannotRegisterMessage. rewrite He.
    destruct e; [ contradiction Hne; reflexivity | reflexivity ].
  - intros st [He | He]; unfold cannotRegisterMessage; rewrite He; simpl;
      destruct (truthy (SetupStatus.dbConfigured st)); reflexivity.
Qed.

(** ** The form while a redirect is under way *)

(** X9.  When the loader has asked for a redirect (tables missing, or an
    admin already there) the component goes on rendering, and what it
    renders is the registration form with every control disabled; a
    submit from that state returns after the "not available" notice and
    sends nothing. *)
Theorem loadStatus_redirect_locks_form
    (s : State) (response : Response StatusJson) (data : SetupStatus.t)
    (Hjson : json response = inr (JsonStatus data))
    (Hdb : SetupStatus.dbConfigured data = Some true)
    (Hconn : SetupStatus.connectionValid data = Some true)
    (Hredirect : SetupStatus.tablesCreated data = false
                 \/ SetupStatus.adminExists data = true) :
  let s' := stateAfter (loadStatus_resume false (inr response) s) in
  (exists f, render s' = RegistrationForm f /\ allDisabled f = true)
  /\ onSubmit_start s'
     = (Returned, s',
        [PreventDefault; ToastError "Registration is not available right now"])
  /\ filter isRedirect (calls (loadStatus_resume false (inr response) s))
     = [RouterReplace (if SetupStatus.tablesCreated data
                       then "/login" else "/setup")].
Proof.
  destruct (loadStatus_resume_data response data s Hjson) as [c [Hrun _]].
  cbv zeta. rewrite Hrun. unfold stateAfter, calls; simpl.
  assert (Hcan : canRegisterInitialAdmin (Some data) = false).
  { simpl. rewrite Hdb, Hconn; simpl.
    destruct Hredirect as [-> | ->]; [ reflexivity | ].
    rewrite andb_false_r. reflexivity. }
  split; [ | split ].
  - unfold render; simpl. rewrite Hdb, Hconn; simpl.
    eexists. split; [ reflexivity | ].
    unfold allDisabled, registrationForm.
    cbn [status submitting disabled buttonDisabled fullNameInput emailInput
         passwordInput submitButton].
    rewrite Hcan; simpl. rewrite orb_true_r. reflexivity.
  - apply onSubmit_start_blocked. exact Hcan.
  - unfold redirectFor. rewrite Hdb, Hconn; simpl.
    destruct (SetupStatus.tablesCreated data); simpl.
    + destruct Hredirect as [H | ->]; [ discriminate H | reflexivity ].
    + reflexivity.
Qed.

Lemma loadStatus_redirect_locks_form_witness :
  exists f,
    render (stateAfter (loadStatus_resume false
              (inr (mkResponse 200%Z (inr (JsonStatus adminExistsStatus)))) initialState))
    = RegistrationForm f
    /\ allDisabled f = true.
Proof.
  destruct (loadStatus_redirect_locks_form initialState
              (mkResponse 200%Z (inr (JsonStatus adminExistsStatus))) adminExistsStatus)
    as (Hform & _).
  - reflexivity.
  - reflexivity.
  - reflexivity.
  - right. reflexivity.
  - exact Hform.
Defined.

(** ** What the component sends over the network *)

(** The calls of one action, by the cases of [Emission]. *)
Ltac by_emission a w :=
  let l := fresh "l" in
  let Hl := fresh "Hl" in
  let Hem := fresh "Hem" in
  pose proof (emitted_Emission a w) as Hem;
  remember (emitted a w) as l eqn:Hl;
  destruct Hem.

Ltac solve_Forall :=
  repeat first
    [ apply Forall_nil
    | apply Forall_cons; [ solve [ simpl; auto ] | ]
    | apply Forall_app; split
    | match goal with
      | |- Forall _ (redirectFor ?d) =>
          destruct (redirectFor_cases d) as [-> | [-> | ->]]
      end ].

(** X10.  Every POST the component ever sends goes to
    /api/auth/register with a JSON content type, carries the role
    "admin", and carries a password of at least 8 characters: no
    interleaving of typing, submitting and settling gets a shorter
    password or another role onto the network. *)
Theorem every_post_is_a_valid_registration
    (w : World) (url contentType : string) (body : RegisterPayload)
    (Hreach : reachable w)
    (Hsent : In (Fetch (Post url contentType body)) (trace w)) :
  url = "/api/auth/register"
  /\ contentType = "application/json"
  /\ payloadRole body = "admin"
  /\ 8 <= String.length (payloadPassword body).
Proof.
  pose (P := fun e : Event =>
               match e with
               | Fetch (Post u c b) =>
                   u = "/api/auth/register" /\ c = "application/json"
                   /\ payloadRole b = "admin"
                   /\ 8 <= String.length (payloadPassword b)
               | _ => True
               end).
  assert (Hall : Forall P (trace w)).
  { apply reachable_trace_Forall; [ | | exact Hreach ].
    - unfold P. solve_Forall.
    - intros a w0 _ _. by_emission a w0; unfold P; solve_Forall. }
  rewrite Forall_forall in Hall. exact (Hall _ Hsent).
Qed.

Lemma every_post_is_a_valid_registration_witness :
  8 <= String.length "correct horse".
Proof.
  refine (proj2 (proj2 (proj2
    (every_post_is_a_valid_registration afterSuccess
       "/api/auth/register" "application/json"
       {| payloadEmail := ""; payloadPassword := "correct horse";
          payloadFullName := ""; payloadRole := "admin" |} _ _)))).
  - exists [LoaderSettles (inr (mkResponse 200%Z (inr (JsonStatus readyStatus))));
            ChangePassword "correct horse"; Submit;
            SubmitSettles (inr (mkResponse 201%Z (inr JsNull)))].
    reflexivity.
  - simpl. do 9 right. left. reflexivity.
Defined.

(** X11.  The status is requested once: in every reachable world the
    trace holds exactly one GET, the uncached one to /api/setup/status
    issued at mount, and it comes before every other network call.
    Nothing retries it, whatever it settles to. *)
Theorem status_is_fetched_once (w : World) (Hreach : reachable w) :
  filter isStatusGet (trace w) = [Fetch (Get "/api/setup/status" "no-store")]
  /\ exists posts,
       filter isNetworkCall (trace w)
       = Fetch (Get "/api/setup/status" "no-store") :: posts
       /\ Forall (fun e => isRegisterPost e = true) posts.
Proof.
  assert (Hstep : forall a w0,
             filter isStatusGet (emitted a w0) = []
             /\ Forall (fun e => isRegisterPost e = true)
                       (filter isNetworkCall (emitted a w0))).
  { intros a w0. by_emission a w0; simpl; try (split; [ reflexivity | solve_Forall ]).
    rewrite !filter_app.
    destruct (redirectFor_cases data) as [-> | [-> | ->]];
      split; [ reflexivity | solve_Forall | reflexivity | solve_Forall
             | reflexivity | solve_Forall ]. }
  destruct Hreach as [acts Hrun].
  apply (runActions_invariant
           (fun x =>
              filter isStatusGet (trace x)
              = [Fetch (Get "/api/setup/status" "no-store")]
              /\ exists posts,
                   filter isNetworkCall (trace x)
                   = Fetch (Get "/api/setup/status" "no-store") :: posts
                   /\ Forall (fun e => isRegisterPost e = true) posts))
    with (acts := acts) (w := mount); [ | exact Hrun | ].
  - intros a x _ [Hget [posts [Hnet Hposts]]].
    destruct (Hstep a x) as [Hnone Hnew].
    rewrite trace_perform, !filter_app, Hget, Hnone, Hnet.
    split; [ reflexivity | ].
    exists (posts ++ filter isNetworkCall (emitted a x)).
    split; [ reflexivity | ].
    apply Forall_app. split; assumption.
  - split; [ reflexivity | ].
    exists []. split; [ reflexivity | constructor ].
Qed.

Lemma status_is_fetched_once_witness :
  filter isStatusGet (trace afterSuccess)
  = [Fetch (Get "/api/setup/status" "no-store")].
Proof.
  refine (proj1 (status_is_fetched_once afterSuccess _)).
  exists [LoaderSettles (inr (mkResponse 200%Z (inr (JsonStatus readyStatus))));
          ChangePassword "correct horse"; Submit;
          SubmitSettles (inr (mkResponse 201%Z (inr JsNull)))].
  reflexivity.
Defined.

(** ** The order of calls along a run *)

Lemma emitted_fetch (a : Action) (w : World) (req : Request) :
  In (Fetch req) (emitted a w) ->
  a = Submit
  /\ canRegisterInitialAdmin (status (state w)) = true
  /\ req = registerRequest (formData (state w)).
Proof.
  by_emission a w; simpl; intros Hin;
    repeat match type of Hin with
           | _ \/ _ => destruct Hin as [Hin | Hin]
           | In _ (_ :: _) => destruct Hin as [Hin | Hin]
           | In _ (_ ++ _) => apply in_app_or in Hin
           | In _ (redirectFor ?d) =>
               destruct (redirectFor_cases d) as [Hr | [Hr | Hr]];
               rewrite Hr in Hin; simpl in Hin
           end;
    try discriminate Hin; try contradiction.
  injection Hin as <-. repeat split. assumption.
Qed.

Lemma status_was_set (w : World) :
  reachable w ->
  forall data, status (state w) = Some data -> In (SetStatus (Some data)) (trace w).
Proof.
  intros [acts Hrun].
  apply (runActions_invariant
           (fun x => forall data, status (state x) = Some data ->
                                  In (SetStatus (Some data)) (trace x)))
    with (acts := acts) (w := mount); [ | exact Hrun | ].
  - intros a x _ IH data. rewrite trace_perform. intros Hdata.
    apply in_or_app.
    destruct a; try (left; apply IH; exact Hdata).
    + rewrite perform_LoaderSettles in Hdata. simpl in Hdata |- *.
      destruct (cancelled x).
      * destruct (loadStatus_resume_cancelled r (state x)) as [k [Hk _]].
        rewrite Hk in Hdata. left. apply IH. exact Hdata.
      * destruct r as [e | response];
          [ rewrite (loadStatus_resume_thrown e) in Hdata
              by (left; reflexivity);
            left; apply IH; exact Hdata | ].
        destruct (json response) as [e | [message | d]] eqn:Hjson.
        -- rewrite (loadStatus_resume_thrown e) in Hdata
             by (right; exists response; split;
                 [ reflexivity | exact Hjson ]).
           left. apply IH. exact Hdata.
        -- rewrite (loadStatus_resume_null response message (state x) Hjson)
             in Hdata.
           discriminate Hdata.
        -- destruct (loadStatus_resume_data response d (state x) Hjson)
             as [k [Hk _]].
           rewrite Hk in Hdata |- *. unfold stateAfter, calls in *.
           simpl in Hdata |- *. injection Hdata as ->.
           right. left. reflexivity.
    + rewrite perform_Submit in Hdata. simpl in Hdata.
      rewrite onSubmit_start_status in Hdata. left. apply IH. exact Hdata.
    + rewrite perform_SubmitSettles in Hdata. simpl in Hdata.
      destruct (onSubmit_resume_status r (state x)) as [Hsame _].
      rewrite Hsame in Hdata. left. apply IH. exact Hdata.
  - intros data Hdata. discriminate Hdata.
Qed.

(** X12.  Every registration POST in a reachable trace comes after a
    [setStatus] whose status allows registration: the request is sent
    only once the loader has stored a status with the database
    configured and connected, the tables created and no admin. *)
Theorem post_follows_an_open_status
    (w : World) (before after : list Event) (req : Request)
    (Hreach : reachable w)
    (Hsplit : trace w = before ++ Fetch req :: after)
    (Hpost : isRegisterPost (Fetch req) = true) :
  exists data,
    In (SetStatus (Some data)) before
    /\ canRegisterInitialAdmin (Some data) = true.
Proof.
  revert before after Hsplit.
  destruct Hreach as [acts Hrun].
  assert (Hgen : forall acts w0 w1,
             reachable w0 ->
             (forall before after,
                 trace w0 = before ++ Fetch req :: after ->
                 exists data, In (SetStatus (Some data)) before
                              /\ canRegisterInitialAdmin (Some data) = true) ->
             runActions acts w0 = Some w1 ->
             forall before after,
               trace w1 = before ++ Fetch req :: after ->
               exists data, In (SetStatus (Some data)) before
                            /\ canRegisterInitialAdmin (Some data) = true).
  { clear acts Hrun w. intros acts.
    induction acts as [| a rest IH]; intros w0 w1 Hreach Hinv Hrun;
      simpl in Hrun.
    - injection Hrun as <-. exact Hinv.
    - destruct (enabled a w0) eqn:Hen; [ | discriminate Hrun ].
      apply (IH (perform a w0) w1); [ | | exact Hrun ].
      + apply (reachableFrom_trans mount w0); [ exact Hreach | ].
        apply reachableFrom_step. exact Hen.
      + intros before after. rewrite trace_perform. intros Hsplit.
        apply app_eq_app in Hsplit as [l [[Hold Hnew] | [Hbefore Hnew]]].
        * destruct l as [| x l].
          -- simpl in Hnew. rewrite app_nil_r in Hold.
             assert (Hin : In (Fetch req) (emitted a w0))
               by (rewrite <- Hnew; left; reflexivity).
             destruct (emitted_fetch a w0 req Hin) as (_ & Hcan & _).
             destruct (status (state w0)) as [data |] eqn:Hdata;
               [ | discriminate Hcan ].
             exists data. split; [ | exact Hcan ].
             rewrite <- Hold. apply status_was_set; assumption.
          -- simpl in Hnew. injection Hnew as <- _.
             apply (Hinv before l). exact Hold.
        * assert (Hin : In (Fetch req) (emitted a w0))
            by (rewrite Hnew; apply in_or_app; right; left; reflexivity).
          destruct (emitted_fetch a w0 req Hin) as (_ & Hcan & _).
          destruct (status (state w0)) as [data |] eqn:Hdata;
            [ | discriminate Hcan ].
          exists data. split; [ | exact Hcan ].
          rewrite Hbefore. apply in_or_app. left.
          apply status_was_set; assumption. }
  apply (Hgen acts mount w); [ exists []; reflexivity | | exact Hrun ].
  intros before after Hsplit. exfalso.
  unfold mount in Hsplit; simpl in Hsplit.
  split_positions Hsplit.
  match goal with
  | Hhead : Fetch _ = Fetch req |- _ => injection Hhead as Hreq
  end.
  subst req. discriminate Hpost.
Qed.

Lemma post_follows_an_open_status_witness :
  exists data,
    In (SetStatus (Some data))
       [SetLoadingStatus true; SetError None;
        Fetch (Get "/api/setup/status" "no-store");
        SetStatus (Some readyStatus); SetLoadingStatus false;
        SetFormData {| fullName := ""; email := "";
                       password := "correct horse" |};
        PreventDefault; SetSubmitting true; SetError None]
    /\ canRegisterInitialAdmin (Some data) = true.
Proof.
  apply (post_follows_an_open_status submitted _ []
           (registerRequest (formData (state submitted)))).
  - exists [LoaderSettles (inr (mkResponse 200%Z (inr (JsonStatus readyStatus))));
            ChangePassword "correct horse"; Submit].
    reflexivity.
  - reflexivity.
  - reflexivity.
Defined.

(** ** Where the component navigates *)

Lemma onSubmit_start_cases (s : State) :
  (completion (onSubmit_start s) = Returned
   /\ stateAfter (onSubmit_start s) = s)
  \/ (completion (onSubmit_start s) = Normal (registerRequest (formData s))
      /\ In (Fetch (registerRequest (formData s))) (calls (onSubmit_start s))
      /\ loadingStatus (stateAfter (onSubmit_start s)) = loadingStatus s).
Proof.
  destruct (canRegisterInitialAdmin (status s)) eqn:Hcan.
  - destruct (Nat.lt_ge_cases (String.length (password (formData s))) 8)
      as [Hlen | Hlen].
    + rewrite (onSubmit_start_short_password s Hcan Hlen).
      left. split; reflexivity.
    + rewrite (onSubmit_start_sends s Hcan Hlen).
      right. repeat split. do 3 right. left. reflexivity.
  - rewrite (onSubmit_start_blocked s Hcan). left. split; reflexivity.
Qed.

Lemma emitted_push_admin (a : Action) (w : World) :
  In (RouterPush "/admin") (emitted a w) -> exists r, a = SubmitSettles r.
Proof.
  by_emission a w; simpl; intros Hin;
    repeat match type of Hin with
           | _ \/ _ => destruct Hin as [Hin | Hin]
           | In _ (_ :: _) => destruct Hin as [Hin | Hin]
           | In _ (_ ++ _) => apply in_app_or in Hin
           | In _ (redirectFor ?d) =>
               destruct (redirectFor_cases d) as [Hr | [Hr | Hr]];
               rewrite Hr in Hin; simpl in Hin
           end;
    try discriminate Hin; try contradiction.
  all: eexists; reflexivity.
Qed.

Lemma push_admin_needs_post (w : World) :
  reachable w ->
  0 < inflight w \/ In (RouterPush "/admin") (trace w) ->
  exists f, In (Fetch (registerRequest f)) (trace w).
Proof.
  intros [acts Hrun].
  apply (runActions_invariant
           (fun x =>
              0 < inflight x \/ In (RouterPush "/admin") (trace x) ->
              exists f, In (Fetch (registerRequest f)) (trace x)))
    with (acts := acts) (w := mount); [ | exact Hrun | ].
  - intros a x Hen IH. rewrite trace_perform. intros Hnow.
    assert (Hkeep : (0 < inflight x \/ In (RouterPush "/admin") (trace x)) ->
                    exists f, In (Fetch (registerRequest f))
                                 (trace x ++ emitted a x)).
    { intros Hold. destruct (IH Hold) as [f Hf]. exists f.
      apply in_or_app. left. exact Hf. }
    assert (Hpush : In (RouterPush "/admin") (trace x ++ emitted a x) ->
                    (forall r, a <> SubmitSettles r) ->
                    In (RouterPush "/admin") (trace x)).
    { intros Hin Hnot. apply in_app_or in Hin as [Hin | Hin]; [ exact Hin | ].
      destruct (emitted_push_admin a x Hin) as [r ->].
      contradiction (Hnot r). reflexivity. }
    destruct a;
      try (apply Hkeep; destruct Hnow as [Hnow | Hnow];
           [ left; exact Hnow
           | right; apply Hpush; [ exact Hnow | intros r; discriminate ] ]).
    + apply Hkeep. destruct Hnow as [Hnow | Hnow].
      * left. rewrite perform_LoaderSettles in Hnow. exact Hnow.
      * right. apply Hpush; [ exact Hnow | intros r0; discriminate ].
    + rewrite perform_Submit in Hnow. simpl in Hnow.
      destruct (onSubmit_start_cases (state x))
        as [[Hret _] | (Hnormal & Hsent & _)].
      * apply Hkeep. rewrite Hret in Hnow.
        destruct Hnow as [Hnow | Hnow]; [ left; exact Hnow | ].
        right. apply Hpush; [ exact Hnow | intros r; discriminate ].
      * exists (formData (state x)). apply in_or_app. right. exact Hsent.
    + apply Hkeep. left. simpl in Hen. apply Nat.ltb_lt. exact Hen.
  - intros [Hflight | Hin].
    + simpl in Hflight. lia.
    + simpl in Hin.
      repeat (destruct Hin as [Hin | Hin]; try discriminate Hin).
      contradiction.
Qed.

(** X13.  The component hands three paths to the router and no other:
    every [router.replace] in a reachable trace goes to /setup or
    /login, every [router.push] to /setup, /login or /admin; and
    [router.push('/admin')] is in the trace only if a registration POST
    is. *)
Theorem navigation_targets (w : World) (path : string)
    (Hreach : reachable w) :
  (In (RouterReplace path) (trace w) ->
   path = "/setup" \/ path = "/login")
  /\ (In (RouterPush path) (trace w) ->
      path = "/setup" \/ path = "/login" \/ path = "/admin")
  /\ (In (RouterPush "/admin") (trace w) ->
      exists f, In (Fetch (registerRequest f)) (trace w)).
Proof.
  pose (P := fun e : Event =>
               match e with
               | RouterReplace p => p = "/setup" \/ p = "/login"
               | RouterPush p => p = "/setup" \/ p = "/login" \/ p = "/admin"
               | _ => True
               end).
  assert (Hall : Forall P (trace w)).
  { apply reachable_trace_Forall; [ | | exact Hreach ].
    - unfold P. solve_Forall.
    - intros a w0 _ _. by_emission a w0; unfold P; solve_Forall. }
  rewrite Forall_forall in Hall.
  split; [ exact (Hall (RouterReplace path)) | ].
  split; [ exact (Hall (RouterPush path)) | ].
  intros Hadmin. apply push_admin_needs_post; [ exact Hreach | ].
  right. exact Hadmin.
Qed.

Lemma navigation_targets_witness :
  exists f, In (Fetch (registerRequest f)) (trace afterSuccess).
Proof.
  destruct (navigation_targets afterSuccess "/admin") as (_ & _ & Hadmin).
  - exists [LoaderSettles (inr (mkResponse 200%Z (inr (JsonStatus readyStatus))));
            ChangePassword "correct horse"; Submit;
            SubmitSettles (inr (mkResponse 201%Z (inr JsNull)))].
    reflexivity.
  - apply Hadmin. simpl. do 11 right. left. reflexivity.
Defined.

(** ** Which screen is shown *)

Lemma onSubmit_resume_loading (r : FetchResult Any) (s : State) :
  loadingStatus (stateAfter (onSubmit_resume r s)) = loadingStatus s.
Proof.
  destruct r as [e | r]; [ | destruct (ok r) eqn:Hok ].
  - rewrite onSubmit_resume_thrown. reflexivity.
  - rewrite (onSubmit_resume_ok r s Hok). reflexivity.
  - rewrite (onSubmit_resume_not_ok r s Hok). reflexivity.
Qed.

Lemma onSubmit_start_loading (s : State) :
  loadingStatus (stateAfter (onSubmit_start s)) = loadingStatus s.
Proof.
  destruct (onSubmit_start_cases s) as [[_ ->] | (_ & _ & H)];
    [ reflexivity | exact H ].
Qed.

Lemma loadStatus_resume_loading (r : FetchResult StatusJson) (s : State) :
  loadingStatus (stateAfter (loadStatus_resume false r s)) = false.
Proof.
  destruct r as [e | response].
  - rewrite (loadStatus_resume_thrown e) by (left; reflexivity). reflexivity.
  - destruct (json response) as [e | [message | data]] eqn:Hjson.
    + rewrite (loadStatus_resume_thrown e)
        by (right; exists response; split; [ reflexivity | exact Hjson ]).
      reflexivity.
    + rewrite (loadStatus_resume_null response message s Hjson). reflexivity.
    + destruct (loadStatus_resume_data response data s Hjson) as [c [Hrun _]].
      rewrite Hrun. reflexivity.
Qed.

Lemma perform_after_loader (a : Action) (w : World) :
  enabled a w = true ->
  loaderPending w = false ->
  loaderPending (perform a w) = false
  /\ status (state (perform a w)) = status (state w)
  /\ loadingStatus (state (perform a w)) = loadingStatus (state w).
Proof.
  intros Hen Hsettled.
  destruct a; try (simpl; repeat split; assumption).
  - simpl in Hen. congruence.
  - rewrite perform_Submit; simpl.
    rewrite onSubmit_start_status, onSubmit_start_loading. auto.
  - rewrite perform_SubmitSettles; simpl.
    destruct (onSubmit_resume_status r (state w)) as [Hsame _].
    rewrite Hsame, onSubmit_resume_loading. auto.
Qed.

(** X14.  Only the loader writes [status] and [loadingStatus].  Once it
    has settled, nothing the user does and no answer of the server
    changes them: [canRegisterInitialAdmin] keeps its value, and which
    of the three screens is rendered (spinner, cannot-register with its
    text, form) is fixed.  In particular a successful registration does
    not refresh the status. *)
Theorem screen_is_fixed_after_load (w w' : World)
    (Hsettled : loaderPending w = false)
    (Hlater : reachableFrom w w') :
  status (state w') = status (state w)
  /\ loadingStatus (state w') = loadingStatus (state w)
  /\ canRegisterInitialAdmin (status (state w'))
     = canRegisterInitialAdmin (status (state w))
  /\ (render (state w') = Spinner <-> render (state w) = Spinner)
  /\ (forall m, render (state w') = CannotRegister m
                <-> render (state w) = CannotRegister m)
  /\ ((exists f, render (state w') = RegistrationForm f)
      <-> (exists f, render (state w) = RegistrationForm f)).
Proof.
  destruct Hlater as [acts Hrun].
  assert (Hfix : loaderPending w' = false
                 /\ status (state w') = status (state w)
                 /\ loadingStatus (state w') = loadingStatus (state w)).
  { apply (runActions_invariant
             (fun x => loaderPending x = false
                       /\ status (state x) = status (state w)
                       /\ loadingStatus (state x) = loadingStatus (state w)))
      with (acts := acts) (w := w); [ | exact Hrun | auto ].
    intros a x Hen (Hp & Hs & Hl).
    destruct (perform_after_loader a x Hen Hp) as (Hp' & Hs' & Hl').
    repeat split; congruence. }
  destruct Hfix as (_ & Hstatus & Hloading).
  split; [ exact Hstatus | ].
  split; [ exact Hloading | ].
  split; [ rewrite Hstatus; reflexivity | ].
  unfold render. rewrite Hstatus, Hloading.
  destruct (loadingStatus (state w)).
  - split; [ tauto | ].
    split; [ intros m; split; discriminate | ].
    split; intros [f Hf]; discriminate Hf.
  - destruct (status (state w)) as [st |].
    + destruct (negb (truthy (SetupStatus.dbConfigured st))
                || negb (truthy (SetupStatus.connectionValid st))).
      * split; [ tauto | ].
        split; [ intros m; tauto | ].
        split; intros [f Hf]; discriminate Hf.
      * split; [ split; discriminate | ].
        split; [ intros m; split; discriminate | ].
        split; intros _; eexists; reflexivity.
    + split; [ split; discriminate | ].
      split; [ intros m; split; discriminate | ].
      split; intros _; eexists; reflexivity.
Qed.

Lemma screen_is_fixed_after_load_witness :
  canRegisterInitialAdmin (status (state afterSuccess)) = true.
Proof.
  destruct (screen_is_fixed_after_load
              (perform (LoaderSettles (inr (mkResponse 200%Z (inr (JsonStatus readyStatus)))))
                       mount)
              afterSuccess)
    as (_ & _ & Hcan & _).
  - reflexivity.
  - exists [ChangePassword "correct horse"; Submit;
            SubmitSettles (inr (mkResponse 201%Z (inr JsNull)))].
    reflexivity.
  - rewrite Hcan. reflexivity.
Defined.

(** X15.  While the component is mounted, [loadingStatus] is true
    exactly while the status request is awaited: the spinner is on
    screen from the mount until the loader settles, whatever it settles
    to, and never afterwards. *)
Theorem spinner_while_pending (w : World)
    (Hreach : reachable w)
    (Hmounted : cancelled w = false) :
  loadingStatus (state w) = loaderPending w
  /\ (render (state w) = Spinner <-> loaderPending w = true).
Proof.
  assert (Hinv : cancelled w = false ->
                 loadingStatus (state w) = loaderPending w).
  { destruct Hreach as [acts Hrun].
    apply (runActions_invariant
             (fun x => cancelled x = false ->
                       loadingStatus (state x) = loaderPending x))
      with (acts := acts) (w := mount); [ | exact Hrun | reflexivity ].
    intros a x Hen IH.
    destruct a; try exact IH.
    - rewrite perform_LoaderSettles; simpl. intros Hc. rewrite Hc.
      apply loadStatus_resume_loading.
    - simpl. discriminate.
    - rewrite perform_Submit; simpl. rewrite onSubmit_start_loading. exact IH.
    - rewrite perform_SubmitSettles; simpl.
      rewrite onSubmit_resume_loading. exact IH. }
  specialize (Hinv Hmounted).
  split; [ exact Hinv | ].
  unfold render. rewrite Hinv.
  destruct (loaderPending w).
  - tauto.
  - split; [ | discriminate ].
    destruct (status (state w)) as [st |]; [ | discriminate ].
    destruct (negb (truthy (SetupStatus.dbConfigured st))
              || negb (truthy (SetupStatus.connectionValid st)));
      discriminate.
Qed.

Lemma spinner_while_pending_witness :
  render (state mount) = Spinner.
Proof.
  destruct (spinner_while_pending mount) as (_ & Hspinner).
  - exists []. reflexivity.
  - reflexivity.
  - apply Hspinner. reflexivity.
Defined.

(** ** When a submit reaches the network *)

(** X16.  A submit sends a request exactly when registration is open
    and the password has at least 8 characters (8 itself is accepted).
    It then sends exactly one, built from the form as it is; otherwise
    it sends none, shows exactly one error toast and leaves the state
    untouched, the "not available" notice taking precedence over the
    password rule. *)
Theorem onSubmit_sends_iff (s : State) :
  let run := onSubmit_start s in
  let open := canRegisterInitialAdmin (status s) = true
              /\ 8 <= String.length (password (formData s)) in
  ((exists req, In (Fetch req) (calls run)) <-> open)
  /\ (open ->
      filter isNetworkCall (calls run)
      = [Fetch (registerRequest (formData s))])
  /\ (~ open ->
      stateAfter run = s
      /\ completion run = Returned
      /\ exists notice, calls run = [PreventDefault; ToastError notice])
  /\ (canRegisterInitialAdmin (status s) = false ->
      calls run
      = [PreventDefault; ToastError "Registration is not available right now"]).
Proof.
  cbv zeta.
  destruct (canRegisterInitialAdmin (status s)) eqn:Hcan.
  - destruct (Nat.lt_ge_cases (String.length (password (formData s))) 8)
      as [Hlen | Hlen].
    + rewrite (onSubmit_start_short_password s Hcan Hlen).
      unfold calls, stateAfter, completion; simpl.
      split; [ | split; [ | split ] ].
      * split; [ | intros [_ H]; lia ].
        intros [req [H | [H | []]]]; discriminate H.
      * intros [_ H]. lia.
      * intros _. repeat split. eexists. reflexivity.
      * discriminate.
    + rewrite (onSubmit_start_sends s Hcan Hlen).
      unfold calls, stateAfter, completion; simpl.
      split; [ | split; [ | split ] ].
      * split; [ intros _; split; [ reflexivity | exact Hlen ] | ].
        intros _. eexists. do 3 right. left. reflexivity.
      * reflexivity.
      * intros Hnot. contradiction Hnot. split; [ reflexivity | exact Hlen ].
      * discriminate.
  - rewrite (onSubmit_start_blocked s Hcan).
    unfold calls, stateAfter, completion; simpl.
    split; [ | split; [ | split ] ].
    + split; [ | intros [H _]; discriminate H ].
      intros [req [H | [H | []]]]; discriminate H.
    + intros [H _]. discriminate H.
    + intros _. repeat split. eexists. reflexivity.
    + reflexivity.
Qed.

(** X17.  What is typed is what is sent: after the three inputs have
    received a name, an email and a password of at least 8 characters,
    a submit with registration open sends one POST whose body holds
    exactly those three values and the role "admin". *)
Theorem typed_values_are_sent (s : State) (name mail pwd : string)
    (Hcan : canRegisterInitialAdmin (status s) = true)
    (Hlen : 8 <= String.length pwd) :
  let typed :=
    stateAfter (onChangePassword pwd
      (stateAfter (onChangeEmail mail
        (stateAfter (onChangeFullName name s))))) in
  filter isNetworkCall (calls (onSubmit_start typed))
  = [Fetch (Post "/api/auth/register" "application/json"
              {| payloadEmail := mail; payloadPassword := pwd;
                 payloadFullName := name; payloadRole := "admin" |})].
Proof.
  cbv zeta.
  rewrite onSubmit_start_sends; [ reflexivity | exact Hcan | exact Hlen ].
Qed.

Lemma typed_values_are_sent_witness :
  filter isNetworkCall
    (calls (onSubmit_start
       (stateAfter (onChangePassword "12345678"
          (stateAfter (onChangeEmail "ada@example.org"
             (stateAfter (onChangeFullName "Ada" (readyState "")))))))))
  = [Fetch (Post "/api/auth/register" "application/json"
              {| payloadEmail := "ada@example.org";
                 payloadPassword := "12345678";
                 payloadFullName := "Ada"; payloadRole := "admin" |})].
Proof.
  apply (typed_values_are_sent (readyState "") "Ada" "ada@example.org"
           "12345678").
  - reflexivity.
  - simpl; lia.
Defined.

(** ** Unmounting while the registration is in flight *)

(** X18.  The registration request has no cancellation guard: when the
    component unmounts while the POST is awaited, the handler still
    runs to its end when the request settles, makes the same calls as
    if the component were mounted, the final [setSubmitting(false)]
    included, and on a 2xx response still calls
    [router.push('/admin')]. *)
Theorem submit_is_not_cancelled (w : World) (r : FetchResult Any)
    (Hflight : 0 < inflight w) :
  enabled (SubmitSettles r) (perform Unmount w) = true
  /\ emitted (SubmitSettles r) (perform Unmount w)
     = emitted (SubmitSettles r) w
  /\ In (SetSubmitting false) (emitted (SubmitSettles r) (perform Unmount w))
  /\ (forall response,
        r = inr response -> ok response = true ->
        In (RouterPush "/admin")
           (trace (perform (SubmitSettles r) (perform Unmount w)))).
Proof.
  split; [ simpl; apply Nat.ltb_lt; exact Hflight | ].
  split; [ reflexivity | ].
  split.
  - unfold emitted.
    replace (state (perform Unmount w)) with (state w) by reflexivity.
    destruct r as [e | r]; [ | destruct (ok r) eqn:Hok ].
    + rewrite onSubmit_resume_thrown. do 2 right. left. reflexivity.
    + rewrite (onSubmit_resume_ok r _ Hok). do 2 right. left. reflexivity.
    + rewrite (onSubmit_resume_not_ok r _ Hok). do 2 right. left. reflexivity.
  - intros response -> Hok. rewrite trace_perform. apply in_or_app. right.
    unfold emitted.
    replace (state (perform Unmount w)) with (state w) by reflexivity.
    rewrite (onSubmit_resume_ok response _ Hok). right. left. reflexivity.
Qed.

Lemma submit_is_not_cancelled_witness :
  In (RouterPush "/admin")
     (trace (perform (SubmitSettles (inr (mkResponse 201%Z (inr JsNull))))
                     (perform Unmount submitted))).
Proof.
  destruct (submit_is_not_cancelled submitted
              (inr (mkResponse 201%Z (inr JsNull))))
    as (_ & _ & _ & Hpush).
  - simpl; lia.
  - apply (Hpush (mkResponse 201%Z (inr JsNull))); reflexivity.
Defined.
